(** * BinJSON (extended JavaScript edition): envelope codec, security
      manager, chunker, stream reassembler and orchestrator.

    A shallow embedding of [binjson.js] and the properties of its
    envelope format.

    Conventions of the embedding.
    - A Node [Buffer] is a [list byte]; JavaScript numbers that the code
      uses as offsets, sizes and identifiers are integers in [Z].
    - A thrown exception is the [Throw] case of [result]; the classes of
      the source ([BinJSONError], [SchemaError], [SecurityError],
      [NetworkError]) and the native ones it can meet are the
      constructors of [error].
    - The libraries the source calls ([msgpack-lite], [zlib], the block
      cipher of [crypto-js], [ajv]) are parameters: records of functions
      ([Codec], [Compressor], [Cipher]) or plain function arguments.
      Reference instances, used to run the embedding on concrete inputs,
      are given in the modules [Msgpack], [ZlibStored] and [XorCbc].
    - [Date.now()], the random generator, the heap of [BinaryJSON]
      objects and the log of calls are the fields of [world], threaded
      through the orchestrator by a state-and-exception monad. *)

From Stdlib Require Import ZArith Lia.
From Stdlib Require Import Strings.Byte.
From stdpp Require Import gmap strings list.

Set Warnings "-register-all".

Local Open Scope Z_scope.

(** ** Bytes and buffers *)

Abbreviation bytes := (list byte).

#[global] Instance byte_eq_dec : EqDecision byte := Byte.byte_eq_dec.

Definition Z_of_byte (b : byte) : Z := Z.of_N (Byte.to_N b).

Definition byte_of_Z (z : Z) : byte :=
  match Byte.of_N (Z.to_N (z mod 256)) with
  | Some b => b
  | None => x00
  end.

Definition len {A} (l : list A) : Z := Z.of_nat (length l).

(** Exceptions: the classes declared by the source and the native errors
    its calls can raise. [LibraryError] is a plain [Error] thrown by one
    of the libraries (msgpack-lite, zlib). *)
Inductive error : Type :=
  | BinJSONError (message : string)
  | SchemaError (message : string)
  | SecurityError (message : string)
  | NetworkError (message : string)
  | RangeError
  | TypeError
  | LibraryError (message : string).

(** [e.message]. The native errors are kept without their text, as
    errors constructed with no message, for which it is the empty
    string. *)
Definition message (e : error) : string :=
  match e with
  | BinJSONError m | SchemaError m | SecurityError m | NetworkError m
  | LibraryError m => m
  | RangeError | TypeError => ""
  end.

Inductive result (A : Type) : Type :=
  | Ok (a : A)
  | Throw (e : error).
Arguments Ok {A} a.
Arguments Throw {A} e.

Module Buffer.

(** Index normalisation of [buf.slice]: a negative index counts from
    the end, and every index is clamped to [0, length]. *)
Definition clamp (n i : Z) : Z :=
  if i <? 0 then Z.max (n + i) 0 else Z.min i n.

(** [buf.slice(start, end)]. *)
Definition slice (b : bytes) (start stop : Z) : bytes :=
  let s := clamp (len b) start in
  let e := clamp (len b) stop in
  take (Z.to_nat (e - s)) (drop (Z.to_nat s) b).

(** [buf.slice(start)]. *)
Definition slice_from (b : bytes) (start : Z) : bytes :=
  slice b start (len b).

(** [Buffer.concat(list)]. *)
Definition concat (l : list bytes) : bytes := List.concat l.

(** [Buffer.alloc(n)]: [n] zero bytes. *)
Definition alloc (n : nat) : bytes := replicate n x00.

(** The four bytes of an unsigned 32-bit integer, most significant
    first. *)
Definition be32 (v : Z) : bytes :=
  [ byte_of_Z (Z.shiftr v 24); byte_of_Z (Z.shiftr v 16);
    byte_of_Z (Z.shiftr v 8); byte_of_Z v ].

(** [buf.readUInt32BE(offset)]: a [RangeError] unless the four bytes
    at [offset] lie inside the buffer. *)
Definition readUInt32BE (b : bytes) (offset : Z) : result Z :=
  if (0 <=? offset) && (offset + 4 <=? len b) then
    match drop (Z.to_nat offset) b with
    | b0 :: b1 :: b2 :: b3 :: _ =>
        Ok (Z.lor (Z.shiftl (Z_of_byte b0) 24)
             (Z.lor (Z.shiftl (Z_of_byte b1) 16)
               (Z.lor (Z.shiftl (Z_of_byte b2) 8) (Z_of_byte b3))))
    | _ => Throw RangeError
    end
  else Throw RangeError.

(** [buf.writeUInt32BE(value, offset)]: a [RangeError] unless [value]
    is an unsigned 32-bit integer and the four bytes fit; the buffer
    keeps its length. *)
Definition writeUInt32BE (b : bytes) (value offset : Z) : result bytes :=
  if (0 <=? value) && (value <=? 4294967295) then
    if (0 <=? offset) && (offset + 4 <=? len b) then
      Ok (take (Z.to_nat offset) b ++ be32 value
            ++ drop (Z.to_nat offset + 4) b)
    else Throw RangeError
  else Throw RangeError.

End Buffer.

(** ** Constants *)

Definition MAGIC_NUMBER : bytes := [x42; x4a].
Definition DEFAULT_SCHEMA_ID : Z := 1.
Definition CHUNK_SIZE : Z := 1024.

(** ** DataHandler *)

(** What [DataHandler.process] returns: in batch mode the buffer it was
    given, in any other mode a JavaScript array of buffers. *)
Inductive processed : Type :=
  | Whole (data : bytes)
  | Chunks (chunks : list bytes).

(** One element of the value returned by [process], as [forEach] and
    indexing see it: iterating a [Buffer] yields its bytes as numbers,
    iterating an array of buffers yields the buffers. *)
Inductive element : Type :=
  | ByteElement (b : byte)
  | BufferElement (chunk : bytes).

Definition elements (p : processed) : list element :=
  match p with
  | Whole data => ByteElement <$> data
  | Chunks chunks => BufferElement <$> chunks
  end.

Module DataHandler.

Record t := { mode : string; chunkSize : Z }.

(** [new DataHandler()] *)
Definition default : t := {| mode := "batch"; chunkSize := CHUNK_SIZE |}.

(** The [for] loop of [process]; [fuel] bounds the number of
    iterations and [None] means it ran out. *)
Fixpoint process_loop (fuel : nat) (data : bytes) (chunkSize i : Z)
    (chunks : list bytes) : option (list bytes) :=
  if i <? len data then
    match fuel with
    | O => None
    | S fuel' =>
        process_loop fuel' data chunkSize (i + chunkSize)
          (chunks ++ [Buffer.slice data i (i + chunkSize)])
    end
  else Some chunks.

(** [process(data)]. With a chunk size of at least one the loop makes
    at most [data.length] iterations. *)
Definition process (h : t) (data : bytes) : option processed :=
  if String.eqb (mode h) "batch" then Some (Whole data)
  else Chunks <$> process_loop (length data) data (chunkSize h) 0 [].

End DataHandler.

(** Every chunk but the last has length [n]. *)
Definition full_but_last (n : Z) (cs : list bytes) : Prop :=
  forall (j : nat) (c : bytes),
    cs !! j = Some c -> (S j < length cs)%nat -> len c = n.

(** ** JSON values *)

(** The values the codec carries. A JavaScript number is modelled when
    it is an integer ([JNumber]); an object is the list of its own
    properties in insertion order. *)
Inductive json : Type :=
  | JNull
  | JBool (b : bool)
  | JNumber (n : Z)
  | JString (s : string)
  | JArray (items : list json)
  | JObject (fields : list (string * json)).

(** [obj[key]] on an object held as a property list; [None] is
    [undefined]. *)
Fixpoint assoc (key : string) (fields : list (string * json)) : option json :=
  match fields with
  | [] => None
  | (k, v) :: rest => if String.eqb k key then Some v else assoc key rest
  end.

(** [obj[key] = v]: an existing property keeps its place. *)
Fixpoint assoc_set (key : string) (v : json) (fields : list (string * json))
    : list (string * json) :=
  match fields with
  | [] => [(key, v)]
  | (k, w) :: rest =>
      if String.eqb k key then (k, v) :: rest
      else (k, w) :: assoc_set key v rest
  end.

(** [value.key] for any value: a [TypeError] on [null], [undefined] on
    the other values that are not objects. *)
Definition get_property (value : json) (key : string) : result (option json) :=
  match value with
  | JNull => Throw TypeError
  | JObject fields => Ok (assoc key fields)
  | _ => Ok None
  end.

(** ** The libraries, as interfaces *)

(** [msgpack.encode] and [msgpack.decode]. *)
Record Codec := {
  msgpack_encode : json -> bytes;
  msgpack_decode : bytes -> result json;
}.

(** [zlib.deflateSync] and [zlib.inflateSync]. *)
Record Compressor := {
  deflateSync : bytes -> bytes;
  inflateSync : bytes -> result bytes;
}.

(** ** Reference codec: the MessagePack format as msgpack-lite writes it *)

Module Msgpack.

(** [n] bytes of [v], most significant first. *)
Fixpoint be_bytes (n : nat) (v : Z) : bytes :=
  match n with
  | O => []
  | S n' => byte_of_Z (Z.shiftr v (8 * Z.of_nat n')) :: be_bytes n' v
  end.

Definition be_uint (b : bytes) : Z :=
  fold_left (fun acc x => Z.lor (Z.shiftl acc 8) (Z_of_byte x)) b 0.

(** The IEEE 754 binary64 bit pattern of an integer (exact below
    2^53, truncating above). *)
Definition float64_bits (n : Z) : Z :=
  if n =? 0 then 0
  else
    let m := Z.abs n in
    let e := Z.log2 m in
    let frac := Z.shiftl m (52 - e) - Z.shiftl 1 52 in
    Z.lor (if n <? 0 then Z.shiftl 1 63 else 0)
      (Z.lor (Z.shiftl (e + 1023) 52) frac).

(** The integer a binary64 bit pattern denotes, when it denotes one. *)
Definition float64_integer (bits : Z) : option Z :=
  let sign := Z.testbit bits 63 in
  let biased := Z.land (Z.shiftr bits 52) 2047 in
  let frac := Z.land bits (Z.shiftl 1 52 - 1) in
  if (biased =? 0) && (frac =? 0) then Some 0
  else if (biased <? 1023) || (2046 <? biased) then None
  else
    let e := biased - 1023 in
    let m := Z.shiftl 1 52 + frac in
    let v := Z.shiftl m (e - 52) in
    if Z.shiftl v (52 - e) =? m then Some (if sign then - v else v)
    else None.

(** msgpack-lite writes a number that equals its own 32-bit signed
    truncation ([value | 0]) in the shortest integer format, and every
    other number as float 64. *)
Definition encode_number (n : Z) : bytes :=
  if (-2147483648 <=? n) && (n <=? 2147483647) then
    if (-32 <=? n) && (n <=? 127) then [byte_of_Z n]
    else if 0 <=? n then
      if n <=? 255 then xcc :: be_bytes 1 n
      else if n <=? 65535 then xcd :: be_bytes 2 n
      else xce :: be_bytes 4 n
    else
      if -128 <=? n then xd0 :: be_bytes 1 n
      else if -32768 <=? n then xd1 :: be_bytes 2 n
      else xd2 :: be_bytes 4 n
  else xcb :: be_bytes 8 (float64_bits n).

Definition encode_string (s : string) : bytes :=
  let b := String.list_byte_of_string s in
  let n := len b in
  (if n <? 32 then [byte_of_Z (160 + n)]
   else if n <=? 255 then xd9 :: be_bytes 1 n
   else if n <=? 65535 then xda :: be_bytes 2 n
   else xdb :: be_bytes 4 n) ++ b.

Definition array_header (n : Z) : bytes :=
  if n <? 16 then [byte_of_Z (144 + n)]
  else if n <=? 65535 then xdc :: be_bytes 2 n
  else xdd :: be_bytes 4 n.

Definition map_header (n : Z) : bytes :=
  if n <? 16 then [byte_of_Z (128 + n)]
  else if n <=? 65535 then xde :: be_bytes 2 n
  else xdf :: be_bytes 4 n.

Fixpoint encode (v : json) : bytes :=
  match v with
  | JNull => [xc0]
  | JBool false => [xc2]
  | JBool true => [xc3]
  | JNumber n => encode_number n
  | JString s => encode_string s
  | JArray items =>
      array_header (len items) ++ List.concat (List.map encode items)
  | JObject fields =>
      map_header (len fields)
        ++ List.concat
             (List.map (fun kv => match kv with
                                  | (k, w) => encode_string k ++ encode w
                                  end) fields)
  end.

(** Decoding reads one value from the front of the buffer and returns
    it with the bytes that follow. [None] stands for the error
    msgpack-lite throws (buffer too short, invalid type byte) and for
    the formats that have no [json] counterpart (bin, ext, float 32,
    a float 64 that is not an integer, a map key that is not a
    string). *)
Definition split_at (n : Z) (b : bytes) : option (bytes * bytes) :=
  if (0 <=? n) && (n <=? len b)
  then Some (take (Z.to_nat n) b, drop (Z.to_nat n) b)
  else None.

Definition read_uint (n : Z) (b : bytes) : option (Z * bytes) :=
  '(h, t) ← split_at n b; Some (be_uint h, t).

Definition read_int (n : Z) (b : bytes) : option (Z * bytes) :=
  '(v, t) ← read_uint n b;
  Some (if Z.shiftl 1 (8 * n - 1) <=? v then v - Z.shiftl 1 (8 * n) else v, t).

Definition read_string (n : Z) (b : bytes) : option (string * bytes) :=
  '(h, t) ← split_at n b; Some (String.string_of_list_byte h, t).

Section decode.
Variable decode_value : bytes -> option (json * bytes).

Fixpoint decode_items (n : nat) (b : bytes) : option (list json * bytes) :=
  match n with
  | O => Some ([], b)
  | S n' =>
      '(v, b1) ← decode_value b;
      '(vs, b2) ← decode_items n' b1;
      Some (v :: vs, b2)
  end.

Fixpoint decode_fields (n : nat) (acc : list (string * json)) (b : bytes)
    : option (list (string * json) * bytes) :=
  match n with
  | O => Some (acc, b)
  | S n' =>
      '(k, b1) ← decode_value b;
      match k with
      | JString key =>
          '(v, b2) ← decode_value b1;
          decode_fields n' (assoc_set key v acc) b2
      | _ => None
      end
  end.
End decode.

Definition decode_array (dv : bytes -> option (json * bytes)) (n : Z)
    (b : bytes) : option (json * bytes) :=
  '(vs, t) ← decode_items dv (Z.to_nat n) b; Some (JArray vs, t).

Definition decode_map (dv : bytes -> option (json * bytes)) (n : Z)
    (b : bytes) : option (json * bytes) :=
  '(fs, t) ← decode_fields dv (Z.to_nat n) [] b; Some (JObject fs, t).

Fixpoint decode_value (fuel : nat) (b : bytes) : option (json * bytes) :=
  match fuel with
  | O => None
  | S fuel' =>
      let dv := decode_value fuel' in
      match b with
      | [] => None
      | t :: rest =>
          let c := Z_of_byte t in
          if c <=? 127 then Some (JNumber c, rest)
          else if c <=? 143 then decode_map dv (c - 128) rest
          else if c <=? 159 then decode_array dv (c - 144) rest
          else if c <=? 191 then
            '(s, r) ← read_string (c - 160) rest; Some (JString s, r)
          else if c =? 192 then Some (JNull, rest)
          else if c =? 194 then Some (JBool false, rest)
          else if c =? 195 then Some (JBool true, rest)
          else if c =? 203 then
            '(bits, r) ← read_uint 8 rest;
            n ← float64_integer bits; Some (JNumber n, r)
          else if (204 <=? c) && (c <=? 207) then
            '(n, r) ← read_uint (Z.shiftl 1 (c - 204)) rest;
            Some (JNumber n, r)
          else if (208 <=? c) && (c <=? 211) then
            '(n, r) ← read_int (Z.shiftl 1 (c - 208)) rest;
            Some (JNumber n, r)
          else if (217 <=? c) && (c <=? 219) then
            '(n, r) ← read_uint (Z.shiftl 1 (c - 217)) rest;
            '(s, r') ← read_string n r; Some (JString s, r')
          else if (220 <=? c) && (c <=? 221) then
            '(n, r) ← read_uint (Z.shiftl 2 (c - 220)) rest;
            decode_array dv n r
          else if (222 <=? c) && (c <=? 223) then
            '(n, r) ← read_uint (Z.shiftl 2 (c - 222)) rest;
            decode_map dv n r
          else if 224 <=? c then Some (JNumber (c - 256), rest)
          else None
      end
  end.

(** [msgpack.decode(buffer)]: the first value of the buffer; bytes
    after it are not looked at. Every value takes at least one byte,
    so the length of the buffer bounds the nesting. *)
Definition decode (b : bytes) : result json :=
  match decode_value (S (length b)) b with
  | Some (v, _) => Ok v
  | None => Throw (LibraryError "msgpack decode")
  end.

Definition codec : Codec :=
  {| msgpack_encode := encode; msgpack_decode := decode |}.

End Msgpack.

(** ** Reference compressor: zlib streams made of stored blocks *)

Module ZlibStored.

(** RFC 1950 checksum. *)
Definition adler32 (b : bytes) : Z :=
  let '(s1, s2) :=
    fold_left (fun '(s1, s2) x =>
                 let s1' := (s1 + Z_of_byte x) mod 65521 in
                 (s1', (s2 + s1') mod 65521)) b (1, 0) in
  Z.lor (Z.shiftl s2 16) s1.

Definition le16 (v : Z) : bytes := [byte_of_Z v; byte_of_Z (Z.shiftr v 8)].

(** RFC 1951 stored blocks of at most 65535 bytes, the last one
    flagged final. *)
Fixpoint blocks (fuel : nat) (b : bytes) : bytes :=
  match fuel with
  | O => []
  | S fuel' =>
      if len b <=? 65535 then
        x01 :: le16 (len b) ++ le16 (Z.lxor (len b) 65535) ++ b
      else
        x00 :: le16 65535 ++ le16 0 ++ take (Z.to_nat 65535) b
          ++ blocks fuel' (drop (Z.to_nat 65535) b)
  end.

(** What [deflateSync] returns at compression level 0. *)
Definition deflate (b : bytes) : bytes :=
  [x78; x01] ++ blocks (S (length b)) b ++ Msgpack.be_bytes 4 (adler32 b).

Fixpoint unblocks (fuel : nat) (b acc : bytes) : option (bytes * bytes) :=
  match fuel, b with
  | S fuel', h :: l0 :: l1 :: n0 :: n1 :: rest =>
      let n := Z_of_byte l0 + 256 * Z_of_byte l1 in
      let c := Z_of_byte n0 + 256 * Z_of_byte n1 in
      if (Z.lxor n 65535 =? c) && (n <=? len rest) then
        let acc' := acc ++ take (Z.to_nat n) rest in
        let rest' := drop (Z.to_nat n) rest in
        if Z_of_byte h =? 1 then Some (acc', rest')
        else if Z_of_byte h =? 0 then unblocks fuel' rest' acc'
        else None
      else None
  | _, _ => None
  end.

(** An inflater for the streams above; it rejects a bad header, a bad
    length field and a bad checksum as [inflateSync] does, and does
    not read Huffman-coded blocks. *)
Definition inflate (b : bytes) : result bytes :=
  match b with
  | cmf :: flg :: body =>
      if (Z.land (Z_of_byte cmf) 15 =? 8)
         && ((256 * Z_of_byte cmf + Z_of_byte flg) mod 31 =? 0)
      then
        match unblocks (length body) body [] with
        | Some (out, trailer) =>
            if Msgpack.be_uint (take 4 trailer) =? adler32 out
            then if 4 <=? len trailer then Ok out
                 else Throw (LibraryError "unexpected end of file")
            else Throw (LibraryError "incorrect data check")
        | None => Throw (LibraryError "invalid block")
        end
      else Throw (LibraryError "incorrect header check")
  | _ => Throw (LibraryError "unexpected end of file")
  end.

Definition zlib : Compressor :=
  {| deflateSync := deflate; inflateSync := inflate |}.

End ZlibStored.

(** ** Exceptions as a monad *)

#[global] Instance result_ret : MRet result := @Ok.
#[global] Instance result_bind : MBind result :=
  fun A B f r => match r with Ok a => f a | Throw e => Throw e end.

(** ** BinaryJSON: the envelope *)

(** [x === s] for a property value [x] and a string literal [s]. *)
Definition strict_equals_string (x : option json) (s : string) : bool :=
  match x with
  | Some (JString t) => String.eqb t s
  | _ => false
  end.

Module BinaryJSON.

Record t := { header : bytes; metadata : json; payload : bytes }.

Definition set_payload (this : t) (p : bytes) : t :=
  {| header := header this; metadata := metadata this; payload := p |}.

Section codec.
Context (msgpack : Codec) (zlib : Compressor).

(** [BinaryJSON.fromDict(data, schemaId, compress)]; [now] is the
    value of [Date.now()]. *)
Definition fromDict (now : Z) (data : json) (schemaId : Z)
    (compress : bool) : result t :=
  let metadata :=
    JObject [ ("schema_id", JNumber schemaId);
              ("timestamp", JNumber now);
              ("compression",
               JString (if compress then "zlib" else "none")) ] in
  let payload := msgpack_encode msgpack data in
  let payload := if compress then deflateSync zlib payload else payload in
  let header := Buffer.concat [MAGIC_NUMBER; Buffer.alloc 4] in
  header ← Buffer.writeUInt32BE header schemaId 2;
  Ok {| header := header; metadata := metadata; payload := payload |}.

(** [toDict()] *)
Definition toDict (this : t) : result json :=
  compression ← get_property (metadata this) "compression";
  decompressed ←
    (if strict_equals_string compression "zlib"
     then inflateSync zlib (payload this)
     else Ok (payload this));
  msgpack_decode msgpack decompressed.

End codec.

End BinaryJSON.

(** ** Text encodings used by the security manager

    A JavaScript string is held as the bytes of its UTF-8 encoding
    ([string]): [Buffer.from(s, 'utf8')] and [CryptoJS.enc.Utf8.parse]
    give these bytes, [buf.toString('utf8')] decodes bytes to a string
    and replaces what is not well formed, and what CryptoJS reads by
    index it reads from the UTF-16 code units of the string. *)

Module Utf8.

Definition continuation (b : byte) (lo hi : Z) : bool :=
  (lo <=? Z_of_byte b) && (Z_of_byte b <=? hi).

(** Well-formed UTF-8: no overlong form, no surrogate, nothing above
    U+10FFFF. *)
Fixpoint well_formed (fuel : nat) (b : bytes) : bool :=
  match fuel with
  | O => match b with [] => true | _ => false end
  | S fuel' =>
      match b with
      | [] => true
      | b0 :: rest =>
          let c := Z_of_byte b0 in
          if c <=? 127 then well_formed fuel' rest
          else if (194 <=? c) && (c <=? 223) then
            match rest with
            | b1 :: rest' =>
                continuation b1 128 191 && well_formed fuel' rest'
            | _ => false
            end
          else if (224 <=? c) && (c <=? 239) then
            match rest with
            | b1 :: b2 :: rest' =>
                continuation b1 (if c =? 224 then 160 else 128)
                                (if c =? 237 then 159 else 191)
                && continuation b2 128 191 && well_formed fuel' rest'
            | _ => false
            end
          else if (240 <=? c) && (c <=? 244) then
            match rest with
            | b1 :: b2 :: b3 :: rest' =>
                continuation b1 (if c =? 240 then 144 else 128)
                                (if c =? 244 then 143 else 191)
                && continuation b2 128 191 && continuation b3 128 191
                && well_formed fuel' rest'
            | _ => false
            end
          else false
      end
  end.

(** Decoding as Node ([buf.toString('utf8')]) and the Encoding
    Standard do it: the code points of the text, with one U+FFFD for
    every maximal part of the input that is not well formed; a byte
    that cannot continue a sequence is read again as the start of the
    next one. *)
Fixpoint decode (fuel : nat) (b : bytes) : list Z :=
  match fuel with
  | O => []
  | S fuel' =>
      match b with
      | [] => []
      | b0 :: rest =>
          let c := Z_of_byte b0 in
          let bits (x : byte) := Z.land (Z_of_byte x) 63 in
          if c <=? 127 then c :: decode fuel' rest
          else if (194 <=? c) && (c <=? 223) then
            match rest with
            | b1 :: rest1 =>
                if continuation b1 128 191
                then Z.lor (Z.shiftl (Z.land c 31) 6) (bits b1)
                       :: decode fuel' rest1
                else 65533 :: decode fuel' rest
            | [] => [65533]
            end
          else if (224 <=? c) && (c <=? 239) then
            match rest with
            | b1 :: rest1 =>
                if continuation b1 (if c =? 224 then 160 else 128)
                                   (if c =? 237 then 159 else 191)
                then
                  match rest1 with
                  | b2 :: rest2 =>
                      if continuation b2 128 191
                      then Z.lor (Z.shiftl (Z.land c 15) 12)
                             (Z.lor (Z.shiftl (bits b1) 6) (bits b2))
                             :: decode fuel' rest2
                      else 65533 :: decode fuel' rest1
                  | [] => [65533]
                  end
                else 65533 :: decode fuel' rest
            | [] => [65533]
            end
          else if (240 <=? c) && (c <=? 244) then
            match rest with
            | b1 :: rest1 =>
                if continuation b1 (if c =? 240 then 144 else 128)
                                   (if c =? 244 then 143 else 191)
                then
                  match rest1 with
                  | b2 :: rest2 =>
                      if continuation b2 128 191
                      then
                        match rest2 with
                        | b3 :: rest3 =>
                            if continuation b3 128 191
                            then Z.lor (Z.shiftl (Z.land c 7) 18)
                                   (Z.lor (Z.shiftl (bits b1) 12)
                                      (Z.lor (Z.shiftl (bits b2) 6)
                                         (bits b3)))
                                   :: decode fuel' rest3
                            else 65533 :: decode fuel' rest2
                        | [] => [65533]
                        end
                      else 65533 :: decode fuel' rest1
                  | [] => [65533]
                  end
                else 65533 :: decode fuel' rest
            | [] => [65533]
            end
          else 65533 :: decode fuel' rest
      end
  end.

(** The UTF-8 bytes of a code point. *)
Definition encode (c : Z) : bytes :=
  let tail (shift : Z) := byte_of_Z (128 + Z.land (Z.shiftr c shift) 63) in
  if c <? 128 then [byte_of_Z c]
  else if c <? 2048 then [byte_of_Z (192 + Z.shiftr c 6); tail 0]
  else if c <? 65536 then [byte_of_Z (224 + Z.shiftr c 12); tail 6; tail 0]
  else [byte_of_Z (240 + Z.shiftr c 18); tail 12; tail 6; tail 0].

(** The UTF-16 code units of a code point: itself, or a surrogate
    pair. *)
Definition units (c : Z) : list Z :=
  if c <? 65536 then [c]
  else [55296 + Z.shiftr (c - 65536) 10; 56320 + Z.land (c - 65536) 1023].

(** [wordArray.toString(CryptoJS.enc.Utf8)]: the text the bytes
    encode, or the error "Malformed UTF-8 data". *)
Definition stringify (b : bytes) : result string :=
  if well_formed (length b) b then Ok (String.string_of_list_byte b)
  else Throw (LibraryError "Malformed UTF-8 data").

End Utf8.

Definition Buffer_from_utf8 (s : string) : bytes := String.list_byte_of_string s.
Definition Utf8_parse (s : string) : bytes := String.list_byte_of_string s.

(** [buf.toString('utf8')]: the text the bytes decode to, with U+FFFD
    where they are not well formed. *)
Definition Buffer_toString_utf8 (b : bytes) : string :=
  String.string_of_list_byte
    (List.concat (List.map Utf8.encode (Utf8.decode (length b) b))).

(** The UTF-16 code units of a string, which are what [charCodeAt],
    [indexOf] and [length] go by. *)
Definition code_units (s : string) : list Z :=
  let b := String.list_byte_of_string s in
  List.concat (List.map Utf8.units (Utf8.decode (length b) b)).

Module Hex.

Definition digit (n : Z) : byte :=
  if n <? 10 then byte_of_Z (48 + n) else byte_of_Z (87 + n).

Definition value (c : byte) : option Z :=
  let n := Z_of_byte c in
  if (48 <=? n) && (n <=? 57) then Some (n - 48)
  else if (97 <=? n) && (n <=? 102) then Some (n - 87)
  else if (65 <=? n) && (n <=? 70) then Some (n - 55)
  else None.

(** [wordArray.toString()] and [buf.toString('hex')]: two lower-case
    digits per byte. *)
Definition stringify (b : bytes) : string :=
  String.string_of_list_byte
    (List.concat
       (List.map (fun x => [digit (Z.shiftr (Z_of_byte x) 4);
                            digit (Z.land (Z_of_byte x) 15)]) b)).

(** Reading pairs of digits, up to the first pair that is not
    hexadecimal. *)
Fixpoint parse_digits (s : bytes) : bytes :=
  match s with
  | h :: l :: rest =>
      match value h, value l with
      | Some a, Some b => byte_of_Z (16 * a + b) :: parse_digits rest
      | _, _ => []
      end
  | _ => []
  end.

(** [Buffer.from(s, 'hex')] and [CryptoJS.enc.Hex.parse(s)]; the
    source applies them to the output of [stringify] only. *)
Definition parse (s : string) : bytes :=
  parse_digits (String.list_byte_of_string s).

End Hex.

Module Base64.

Definition alphabet : bytes :=
  String.list_byte_of_string
    "ABCDEFGHIJKLMNOPQRSTUVWXYZabcdefghijklmnopqrstuvwxyz0123456789+/".

Definition char (n : Z) : byte := nth (Z.to_nat n) alphabet x3d.

(** The reverse map of CryptoJS, by code unit; a character outside
    the alphabet contributes no bits. *)
Definition value (n : Z) : Z :=
  if (65 <=? n) && (n <=? 90) then n - 65
  else if (97 <=? n) && (n <=? 122) then n - 71
  else if (48 <=? n) && (n <=? 57) then n + 4
  else if n =? 43 then 62
  else if n =? 47 then 63
  else 0.

Fixpoint stringify_bytes (b : bytes) : bytes :=
  match b with
  | [] => []
  | [x] =>
      let n := Z.shiftl (Z_of_byte x) 16 in
      [char (Z.shiftr n 18); char (Z.land (Z.shiftr n 12) 63); x3d; x3d]
  | [x; y] =>
      let n := Z.lor (Z.shiftl (Z_of_byte x) 16) (Z.shiftl (Z_of_byte y) 8) in
      [char (Z.shiftr n 18); char (Z.land (Z.shiftr n 12) 63);
       char (Z.land (Z.shiftr n 6) 63); x3d]
  | x :: y :: z :: rest =>
      let n := Z.lor (Z.shiftl (Z_of_byte x) 16)
                 (Z.lor (Z.shiftl (Z_of_byte y) 8) (Z_of_byte z)) in
      char (Z.shiftr n 18) :: char (Z.land (Z.shiftr n 12) 63)
        :: char (Z.land (Z.shiftr n 6) 63) :: char (Z.land n 63)
        :: stringify_bytes rest
  end.

(** [CryptoJS.enc.Base64.stringify] *)
Definition stringify (b : bytes) : string :=
  String.string_of_list_byte (stringify_bytes b).

(** The code units before the first padding character. *)
Fixpoint before_padding (s : list Z) : list Z :=
  match s with
  | [] => []
  | c :: rest => if c =? 61 then [] else c :: before_padding rest
  end.

(** The loop of [parse]: every character whose index is not a
    multiple of four completes one byte with its predecessor. *)
Fixpoint parse_loop (s : list Z) : bytes :=
  match s with
  | a :: b :: c :: d :: rest =>
      byte_of_Z (Z.lor (Z.shiftl (value a) 2) (Z.shiftr (value b) 4))
        :: byte_of_Z (Z.lor (Z.shiftl (value b) 4) (Z.shiftr (value c) 2))
        :: byte_of_Z (Z.lor (Z.shiftl (value c) 6) (value d))
        :: parse_loop rest
  | [a; b; c] =>
      [ byte_of_Z (Z.lor (Z.shiftl (value a) 2) (Z.shiftr (value b) 4));
        byte_of_Z (Z.lor (Z.shiftl (value b) 4) (Z.shiftr (value c) 2)) ]
  | [a; b] =>
      [ byte_of_Z (Z.lor (Z.shiftl (value a) 2) (Z.shiftr (value b) 4)) ]
  | _ => []
  end.

(** [CryptoJS.enc.Base64.parse] *)
Definition parse (s : string) : bytes :=
  parse_loop (before_padding (code_units s)).

End Base64.

(** ** The world: clock, random generator, heap, files and call log *)

Abbreviation loc := positive.

(** The calls the orchestrator makes to the other classes, logged on
    entry. *)
Inductive call : Type :=
  | CallValidate (data : json)
  | CallFromDict (data : json) (schemaId : Z) (compress : bool)
  | CallEncrypt (data : bytes)
  | CallDecrypt (data : bytes)
  | CallToDict (this : loc).

Record world := {
  clock : Z;
  entropy : nat -> byte;
  consumed : nat;
  heap : gmap loc BinaryJSON.t;
  files : gmap string bytes;
  calls : list call;
}.

Definition M (A : Type) : Type := world -> result A * world.

#[global] Instance M_ret : MRet M := fun A a w => (Ok a, w).
#[global] Instance M_bind : MBind M :=
  fun A B f m w =>
    match m w with
    | (Ok a, w') => f a w'
    | (Throw e, w') => (Throw e, w')
    end.

Definition lift {A} (r : result A) : M A := fun w => (r, w).

Definition throw {A} (e : error) : M A := fun w => (Throw e, w).

(** [Date.now()] *)
Definition Date_now : M Z := fun w => (Ok (clock w), w).

(** The next [n] bytes the generator gives in the world [w]. *)
Definition next_random (n : nat) (w : world) : bytes :=
  (fun i => entropy w (consumed w + i)%nat) <$> seq 0 n.

(** [CryptoJS.lib.WordArray.random(n)] *)
Definition random (n : nat) : M bytes :=
  fun w =>
    (Ok (next_random n w),
     {| clock := clock w; entropy := entropy w;
        consumed := (consumed w + n)%nat;
        heap := heap w; files := files w; calls := calls w |}).

Definition with_calls (cs : list call) (w : world) : world :=
  {| clock := clock w; entropy := entropy w; consumed := consumed w;
     heap := heap w; files := files w; calls := cs |}.

Definition log (c : call) : M unit :=
  fun w => (Ok tt, with_calls (calls w ++ [c]) w).

Definition with_heap (h : gmap loc BinaryJSON.t) (w : world) : world :=
  {| clock := clock w; entropy := entropy w; consumed := consumed w;
     heap := h; files := files w; calls := calls w |}.

(** [new BinaryJSON(header, metadata, payload)] *)
Definition new_BinaryJSON (e : BinaryJSON.t) : M loc :=
  fun w =>
    let l := fresh (dom (heap w)) in
    (Ok l, with_heap (<[l := e]> (heap w)) w).

(** Reading the object a reference points to. *)
Definition deref (l : loc) : M BinaryJSON.t :=
  fun w =>
    match heap w !! l with
    | Some e => (Ok e, w)
    | None => (Throw TypeError, w)
    end.

(** [ref.payload = p] *)
Definition assign_payload (l : loc) (p : bytes) : M unit :=
  fun w =>
    match heap w !! l with
    | Some e => (Ok tt, with_heap (<[l := BinaryJSON.set_payload e p]> (heap w)) w)
    | None => (Throw TypeError, w)
    end.

(** [fs.writeFileSync] and [fs.readFileSync] *)
Definition writeFileSync (path : string) (b : bytes) : M unit :=
  fun w =>
    (Ok tt,
     {| clock := clock w; entropy := entropy w; consumed := consumed w;
        heap := heap w; files := <[path := b]> (files w);
        calls := calls w |}).

Definition readFileSync (path : string) : M bytes :=
  fun w =>
    match files w !! path with
    | Some b => (Ok b, w)
    | None => (Throw (LibraryError "ENOENT"), w)
    end.

(** ** SecurityManager *)

(** The block cipher behind [CryptoJS.AES]: from message, key and IV to
    the raw ciphertext, and back. *)
Record Cipher := {
  aes_encrypt : bytes -> bytes -> bytes -> result bytes;
  aes_decrypt : bytes -> bytes -> bytes -> result bytes;
}.

Module OpenSSL.

Definition salted : bytes := String.list_byte_of_string "Salted__".

(** [cipherParams.toString()]: with a key given as a word array there
    is no salt, and the text is the Base64 of the ciphertext. *)
Definition stringify (ciphertext : bytes) : string :=
  Base64.stringify ciphertext.

(** The formatter's [parse]: Base64, then a salt header is cut off if
    the bytes start with one. *)
Definition parse (text : string) : bytes :=
  let ciphertext := Base64.parse text in
  if decide (take 8 ciphertext = salted) then drop 16 ciphertext
  else ciphertext.

End OpenSSL.

Module SecurityManager.

Record t := { key : string }.

(** [try { ... } catch (e) { throw new SecurityError(`${what}:
    ${e.message}`) }] *)
Definition try_catch (what : string) (body : result bytes) : result bytes :=
  match body with
  | Ok b => Ok b
  | Throw e => Throw (SecurityError (what +:+ ": " +:+ message e))
  end.

Section cipher.
Context (cipher : Cipher).

(** [CryptoJS.AES.decrypt(text, key, { iv })] on formatted text. *)
Definition AES_decrypt (text : string) (key iv : bytes) : result bytes :=
  aes_decrypt cipher (OpenSSL.parse text) key iv.

(** The body of [encrypt(data)] once the IV is drawn. *)
Definition encrypt_with_iv (this : t) (iv : bytes) (data : bytes)
    : result bytes :=
  try_catch "Encryption failed"
    (encrypted ← aes_encrypt cipher data (Utf8_parse (key this)) iv;
     Ok (Buffer.concat
           [ Hex.parse (Hex.stringify iv);
             Buffer_from_utf8 (OpenSSL.stringify encrypted) ])).

(** [encrypt(data)] *)
Definition encrypt (this : t) (data : bytes) : M bytes :=
  iv ← random 16;
  lift (encrypt_with_iv this iv data).

(** [decrypt(data)] *)
Definition decrypt (this : t) (data : bytes) : result bytes :=
  try_catch "Decryption failed"
    (let iv := Hex.parse (Hex.stringify (Buffer.slice data 0 32)) in
     let encrypted := Buffer_toString_utf8 (Buffer.slice_from data 32) in
     decrypted ← AES_decrypt encrypted (Utf8_parse (key this)) iv;
     text ← Utf8.stringify decrypted;
     Ok (Buffer_from_utf8 text)).

End cipher.

End SecurityManager.

(** ** Reference cipher: CBC chaining with PKCS#7 padding over a
       16-byte block function that adds the key *)

Module XorCbc.

Definition xor_byte (a b : byte) : byte :=
  byte_of_Z (Z.lxor (Z_of_byte a) (Z_of_byte b)).

Fixpoint xor_block (a b : bytes) : bytes :=
  match a, b with
  | x :: a', y :: b' => xor_byte x y :: xor_block a' b'
  | _, [] => a
  | [], _ => []
  end.

(** The first 16 bytes of [b], zero-filled. *)
Definition block16 (b : bytes) : bytes := take 16 (b ++ replicate 16 x00).

Definition pad (b : bytes) : bytes :=
  let n := 16 - (len b) mod 16 in
  b ++ replicate (Z.to_nat n) (byte_of_Z n).

(** [Pkcs7.unpad] on the [n] bytes the decryptor kept of [processed]:
    the number of padding bytes is the low byte of the word that holds
    the last byte kept (zero when nothing was kept), and that many
    bytes are taken off the count, without a check; a count that
    falls below zero leaves no byte. *)
Definition unpad (n : nat) (processed : bytes) : bytes :=
  let nPaddingBytes :=
    match n with
    | O => 0
    | S m => Z_of_byte (nth (4 * (m / 4) + 3) processed x00)
    end in
  take (Z.to_nat (Z.of_nat n - nPaddingBytes)) processed.

Fixpoint cbc_encrypt (fuel : nat) (k prev b : bytes) : bytes :=
  match fuel, b with
  | S fuel', _ :: _ =>
      let c := xor_block (xor_block (take 16 b) prev) k in
      c ++ cbc_encrypt fuel' k c (drop 16 b)
  | _, _ => []
  end.

Fixpoint cbc_decrypt (fuel : nat) (k prev b : bytes) : bytes :=
  match fuel, b with
  | S fuel', _ :: _ =>
      let c := take 16 b in
      xor_block (xor_block c k) prev ++ cbc_decrypt fuel' k c (drop 16 b)
  | _, _ => []
  end.

Definition encrypt (message key iv : bytes) : result bytes :=
  let p := pad message in
  Ok (cbc_encrypt (length p) (block16 key) (block16 iv) p).

(** Decryption as the block cipher of CryptoJS runs it, and it never
    throws: a last block the ciphertext ends inside is processed with
    the missing bytes read as zero, the result keeps as many bytes as
    the ciphertext has, and the padding is taken off as [unpad] says. *)
Definition decrypt (ciphertext key iv : bytes) : result bytes :=
  let n := length ciphertext in
  let blocks := ((n + 15) / 16)%nat in
  let filled := ciphertext ++ replicate (16 * blocks - n) x00 in
  Ok (unpad n (cbc_decrypt blocks (block16 key) (block16 iv) filled)).

Definition cipher : Cipher :=
  {| aes_encrypt := encrypt; aes_decrypt := decrypt |}.

End XorCbc.

(** ** SchemaValidator *)

Module SchemaValidator.

(** The function [ajv.compile(schema)] returns, and the text
    [ajv.errorsText] gives for a rejected value. *)
Record t := { validateFn : json -> bool; errorsText : json -> string }.

(** [validate(data)] *)
Definition validate (this : t) (data : json) : M bool :=
  log (CallValidate data);;
  if negb (validateFn this data)
  then throw (SchemaError ("Validation failed: " +:+ errorsText this data))
  else mret true.

End SchemaValidator.

(** ** BinJSON: the orchestrator *)

Module BinJSON.

Record t := {
  validator : option SchemaValidator.t;
  security : SecurityManager.t;
  handler : DataHandler.t;
}.

(** [setHandlerMode(mode, chunkSize)] *)
Definition setHandlerMode (this : t) (mode : string) (chunkSize : Z) : t :=
  {| validator := validator this; security := security this;
     handler := {| DataHandler.mode := mode;
                   DataHandler.chunkSize := chunkSize |} |}.

Section libraries.
Context (msgpack : Codec) (zlib : Compressor) (cipher : Cipher).

(** The call [BinaryJSON.fromDict(data, schemaId, compress)]. *)
Definition call_fromDict (data : json) (schemaId : Z) (compress : bool)
    : M loc :=
  log (CallFromDict data schemaId compress);;
  now ← Date_now;
  e ← lift (BinaryJSON.fromDict msgpack zlib now data schemaId compress);
  new_BinaryJSON e.

(** The call [ref.toDict()]. *)
Definition call_toDict (l : loc) : M json :=
  log (CallToDict l);;
  e ← deref l;
  lift (BinaryJSON.toDict msgpack zlib e).

(** The call [this.security.encrypt(data)]. *)
Definition call_encrypt (s : SecurityManager.t) (data : bytes) : M bytes :=
  log (CallEncrypt data);;
  SecurityManager.encrypt cipher s data.

(** The call [this.security.decrypt(data)]. *)
Definition call_decrypt (s : SecurityManager.t) (data : bytes) : M bytes :=
  log (CallDecrypt data);;
  lift (SecurityManager.decrypt cipher s data).

(** [serialize(data, schemaId, compress, encrypt)] *)
Definition serialize (this : t) (data : json) (schemaId : Z)
    (compress encrypt : bool) : M loc :=
  match validator this with
  | Some v => SchemaValidator.validate v data
  | None => mret true
  end;;
  binaryJson ← call_fromDict data schemaId compress;
  (if encrypt then
     e ← deref binaryJson;
     sealed ← call_encrypt (security this) (BinaryJSON.payload e);
     assign_payload binaryJson sealed
   else mret tt);;
  mret binaryJson.

(** [deserialize(binaryJson, decrypt)] *)
Definition deserialize (this : t) (binaryJson : loc) (decrypt : bool)
    : M json :=
  (if decrypt then
     e ← deref binaryJson;
     opened ← call_decrypt (security this) (BinaryJSON.payload e);
     assign_payload binaryJson opened
   else mret tt);;
  call_toDict binaryJson.

End libraries.

End BinJSON.

(** ** BinJSONWebSocket *)

Module BinJSONWebSocket.

(** [WebSocket.OPEN] *)
Definition OPEN : Z := 1.

(** The fields of the wrapper; [readyState] and [sent] stand for the
    underlying socket: its state and the frames handed to [ws.send],
    in order. [currentBinaryJSON = None] is [null]. *)
Record t := {
  binjson : BinJSON.t;
  readyState : Z;
  sent : list element;
  chunkBuffer : list bytes;
  currentBinaryJSON : option loc;
}.

(** The fields set by the constructor, for a socket in state
    [readyState]. *)
Definition create (binjsonInstance : BinJSON.t) (readyState : Z) : t :=
  {| binjson := binjsonInstance; readyState := readyState; sent := [];
     chunkBuffer := []; currentBinaryJSON := None |}.

Definition push_chunk (this : t) (chunk : bytes) : t :=
  {| binjson := binjson this; readyState := readyState this;
     sent := sent this; chunkBuffer := chunkBuffer this ++ [chunk];
     currentBinaryJSON := currentBinaryJSON this |}.

Definition set_current (this : t) (cur : option loc) : t :=
  {| binjson := binjson this; readyState := readyState this;
     sent := sent this; chunkBuffer := chunkBuffer this;
     currentBinaryJSON := cur |}.

Definition ws_send (this : t) (frames : list element) : t :=
  {| binjson := binjson this; readyState := readyState this;
     sent := sent this ++ frames; chunkBuffer := chunkBuffer this;
     currentBinaryJSON := currentBinaryJSON this |}.

Section libraries.
Context (msgpack : Codec) (zlib : Compressor) (cipher : Cipher).

(** The two branches of the [onmessage] handler, after the chunk was
    pushed; the value is the new [currentBinaryJSON]. *)
Definition onmessage_body (this : t) (chunk : bytes) : M (option loc) :=
  if (len (chunkBuffer this) =? 1) then
    let first := default [] (chunkBuffer this !! 0%nat) in
    let header := Buffer.slice first 0 6 in
    metadataLength ← lift (Buffer.readUInt32BE first 6);
    metadata ← lift (msgpack_decode msgpack
                       (Buffer.slice first 6 (6 + metadataLength)));
    l ← new_BinaryJSON
          {| BinaryJSON.header := header;
             BinaryJSON.metadata := metadata;
             BinaryJSON.payload :=
               Buffer.slice_from (Buffer.concat (chunkBuffer this))
                 (6 + metadataLength) |};
    mret (Some l)
  else
    match currentBinaryJSON this with
    | None => throw TypeError
    | Some l =>
        e ← deref l;
        assign_payload l (Buffer.concat [BinaryJSON.payload e; chunk]);;
        mret (Some l)
    end.

(** [ws.onmessage(event)] with [event.data = data]: the wrapper
    after the handler ran, and whether the handler threw. The chunk
    stays pushed when it throws. *)
Definition onmessage (this : t) (data : bytes) (w : world)
    : t * result unit * world :=
  let chunk := data in
  let this := push_chunk this chunk in
  match onmessage_body this chunk w with
  | (Ok cur, w') => (set_current this cur, Ok tt, w')
  | (Throw e, w') => (this, Throw e, w')
  end.

(** Messages delivered one after the other; a handler that throws
    does not stop the delivery of the next message. *)
Fixpoint deliver (this : t) (messages : list bytes) (w : world)
    : t * world :=
  match messages with
  | [] => (this, w)
  | m :: rest =>
      let '(this', _, w') := onmessage this m w in
      deliver this' rest w'
  end.

(** [send(binaryJSON)]; [None] when the loop of [process] does not
    end. *)
Definition send (this : t) (binaryJSON : loc) (w : world)
    : option (t * result unit * world) :=
  if negb (readyState this =? OPEN) then
    Some (this, Throw (NetworkError "WebSocket not connected"), w)
  else
    match deref binaryJSON w with
    | (Throw e, w') => Some (this, Throw e, w')
    | (Ok e, w') =>
        chunks ← DataHandler.process (BinJSON.handler (binjson this))
                   (Buffer.concat
                      [ BinaryJSON.header e;
                        msgpack_encode msgpack (BinaryJSON.metadata e);
                        BinaryJSON.payload e ]);
        Some (ws_send this (elements chunks), Ok tt, w')
    end.

(** [getReceivedData()] *)
Definition getReceivedData (this : t) : M json :=
  match currentBinaryJSON this with
  | None => throw (BinJSONError "No data received yet")
  | Some l => BinJSON.deserialize msgpack zlib cipher (binjson this) l false
  end.

End libraries.

End BinJSONWebSocket.

(** ** Files *)

Section files.
Context (msgpack : Codec).

(** [saveToFile(binaryJson, filepath)] *)
Definition saveToFile (binaryJson : loc) (filepath : string) : M unit :=
  e ← deref binaryJson;
  let buffer :=
    Buffer.concat [ BinaryJSON.header e;
                    msgpack_encode msgpack (BinaryJSON.metadata e);
                    BinaryJSON.payload e ] in
  writeFileSync filepath buffer.

(** [loadFromFile(filepath)] *)
Definition loadFromFile (filepath : string) : M loc :=
  data ← readFileSync filepath;
  let header := Buffer.slice data 0 6 in
  metadataLength ← lift (Buffer.readUInt32BE data 6);
  metadata ← lift (msgpack_decode msgpack
                     (Buffer.slice data 6 (6 + metadataLength)));
  let payload := Buffer.slice_from data (6 + metadataLength) in
  new_BinaryJSON {| BinaryJSON.header := header;
                    BinaryJSON.metadata := metadata;
                    BinaryJSON.payload := payload |}.

End files.

(** ** The channel between two wrappers *)

(** The binary messages a list of frames carries: the frames that are
    buffers, in order. *)
Definition buffer_frames (frames : list element) : list bytes :=
  List.concat
    (List.map (fun f => match f with
                        | BufferElement c => [c]
                        | ByteElement _ => []
                        end) frames).

(** The bytes [saveToFile] and [send] put together for an envelope. *)
Definition wire_of (msgpack : Codec) (e : BinaryJSON.t) : bytes :=
  Buffer.concat [ BinaryJSON.header e;
                  msgpack_encode msgpack (BinaryJSON.metadata e);
                  BinaryJSON.payload e ].

(** The envelope a wrapper holds, if any. *)
Definition received (this : BinJSONWebSocket.t) (w : world)
    : option BinaryJSON.t :=
  l ← BinJSONWebSocket.currentBinaryJSON this; heap w !! l.

(** ** The format and the reassembler as the specification words them

    These definitions follow the specification, not the source; the
    theorems compare the source with them. *)

Module Specified.

(** Envelope binary layout: magic, schema id, metadata length, encoded
    metadata, payload. *)
Definition layout (msgpack : Codec) (schema_id : Z) (metadata : json)
    (payload : bytes) : bytes :=
  MAGIC_NUMBER ++ Buffer.be32 schema_id
    ++ Buffer.be32 (len (msgpack_encode msgpack metadata))
    ++ msgpack_encode msgpack metadata ++ payload.

(** Canonical sealed payload: the raw IV, then the raw ciphertext. *)
Definition sealed (cipher : Cipher) (key iv data : bytes) : result bytes :=
  ciphertext ← aes_encrypt cipher data key iv;
  Ok (iv ++ ciphertext).

(** The reassembly state and its per-chunk transition. *)
Module Reassembler.






End Reassembler.

End Specified.

(** ** A concrete run: the value of the examples, the reference
       libraries, a fixed clock and generator *)

Module Scenario.

Definition alice : json :=
  JObject [("id", JNumber 1); ("name", JString "Alice")].

(** The envelope [fromDict] builds for it at the time 1700000000000,
    with schema id 1 and no compression. *)
Definition alice_envelope : BinaryJSON.t :=
  {| BinaryJSON.header := [x42; x4a; x00; x00; x00; x01];
     BinaryJSON.metadata :=
       JObject [ ("schema_id", JNumber 1);
                 ("timestamp", JNumber 1700000000000);
                 ("compression", JString "none") ];
     BinaryJSON.payload := Msgpack.encode alice |}.

Definition initial : world :=
  {| clock := 1700000000000;
     entropy := fun i => byte_of_Z (7 * Z.of_nat i + 3);
     consumed := 0; heap := ∅; files := ∅; calls := [] |}.

(** A validator for the schema of the examples: an object with the
    required properties [id] and [name]. *)
Definition required_id_name : SchemaValidator.t :=
  {| SchemaValidator.validateFn := fun v =>
       match v with
       | JObject fields =>
           bool_decide (is_Some (assoc "id" fields))
           && bool_decide (is_Some (assoc "name" fields))
       | _ => false
       end;
     SchemaValidator.errorsText := fun _ => "data must have required property" |}.

Definition binjson : BinJSON.t :=
  {| BinJSON.validator := Some required_id_name;
     BinJSON.security :=
       {| SecurityManager.key := "my_32byte_secret_key_here..." |};
     BinJSON.handler := DataHandler.default |}.

(** A payload laid out the way [decrypt] reads it, for the plain text
    "*" (one byte, the MessagePack encoding of 42): 32 bytes taken as
    IV, then the Base64 text of the ciphertext. *)
Definition sealed_answer : bytes :=
  let iv := replicate 32 x11 in
  match XorCbc.encrypt [x2a]
          (Utf8_parse (SecurityManager.key (BinJSON.security binjson))) iv with
  | Ok ciphertext => iv ++ Buffer_from_utf8 (Base64.stringify ciphertext)
  | Throw _ => []
  end.

(** The same for the one byte ff, which is not UTF-8 text. *)
Definition sealed_not_text : bytes :=
  let iv := replicate 32 x11 in
  match XorCbc.encrypt [xff]
          (Utf8_parse (SecurityManager.key (BinJSON.security binjson))) iv with
  | Ok ciphertext => iv ++ Buffer_from_utf8 (Base64.stringify ciphertext)
  | Throw _ => []
  end.

Definition sealed_envelope : BinaryJSON.t :=
  {| BinaryJSON.header := [x42; x4a; x00; x00; x00; x01];
     BinaryJSON.metadata :=
       JObject [ ("schema_id", JNumber 1);
                 ("timestamp", JNumber 1700000000000);
                 ("compression", JString "none") ];
     BinaryJSON.payload := sealed_answer |}.

Definition serialize := BinJSON.serialize Msgpack.codec ZlibStored.zlib XorCbc.cipher.
Definition deserialize := BinJSON.deserialize Msgpack.codec ZlibStored.zlib XorCbc.cipher.

(** [serialize] the value, [send] it in stream mode with the given
    chunk size over an open socket, and deliver the frames to a fresh
    wrapper: the envelope sent, the number of chunks, and the
    envelope the receiver holds. *)
Definition send_and_receive (data : json) (compress : bool) (chunkSize : Z)
    : option (option BinaryJSON.t * nat * option BinaryJSON.t) :=
  let streaming := BinJSON.setHandlerMode binjson "stream" chunkSize in
  match serialize streaming data 1 compress false initial with
  | (Ok l, w1) =>
      let sender := BinJSONWebSocket.create streaming BinJSONWebSocket.OPEN in
      '(sender', _, w2) ← BinJSONWebSocket.send Msgpack.codec sender l w1;
      let chunks := buffer_frames (BinJSONWebSocket.sent sender') in
      let receiver := BinJSONWebSocket.create streaming BinJSONWebSocket.OPEN in
      let '(receiver', w3) :=
        BinJSONWebSocket.deliver Msgpack.codec receiver chunks w2 in
      Some (heap w3 !! l, length chunks, received receiver' w3)
  | (Throw _, _) => None
  end.

(** The objects behind two references and the bytes of a file. *)
Definition snapshot (l l' : loc) (path : string)
    : M (option BinaryJSON.t * option bytes * option BinaryJSON.t) :=
  fun w => (Ok (heap w !! l, files w !! path, heap w !! l'), w).

(** [saveToFile] then [loadFromFile]: the envelope saved, the bytes of
    the file, and the envelope loaded. *)
Definition save_and_load (data : json) (compress : bool)
    : result (option BinaryJSON.t * option bytes * option BinaryJSON.t) :=
  fst ((l ← serialize binjson data 1 compress false;
        saveToFile Msgpack.codec l "data.bin";;
        l' ← loadFromFile Msgpack.codec "data.bin";
        snapshot l l' "data.bin") initial).

End Scenario.

(** ** Constructors *)

(** JavaScript truthiness of a value. *)
Definition truthy (v : json) : bool :=
  match v with
  | JNull => false
  | JBool b => b
  | JNumber n => negb (n =? 0)
  | JString s => negb (String.eqb s "")
  | JArray _ | JObject _ => true
  end.

(** [new SecurityManager(key)]: the key given, or when it is [null]
    ([None]) or the empty string, the hexadecimal text of 32 random
    bytes. *)
Definition new_SecurityManager (key : option string) : M SecurityManager.t :=
  match key with
  | Some k =>
      if String.eqb k "" then
        generated ← random 32;
        mret {| SecurityManager.key := Hex.stringify generated |}
      else mret {| SecurityManager.key := k |}
  | None =>
      generated ← random 32;
      mret {| SecurityManager.key := Hex.stringify generated |}
  end.

(** [new BinJSON(schema, securityKey)]; [compile] is [ajv.compile],
    which throws on a schema it does not accept, and [JNull] is the
    schema [null]. *)
Definition new_BinJSON (compile : json -> result SchemaValidator.t)
    (schema : json) (securityKey : option string) : M BinJSON.t :=
  validator ←
    (if truthy schema
     then v ← lift (compile schema); mret (Some v)
     else mret None);
  security ← new_SecurityManager securityKey;
  mret {| BinJSON.validator := validator; BinJSON.security := security;
          BinJSON.handler := DataHandler.default |}.

(** [WebSocket.CONNECTING], the state of a socket just constructed. *)
Definition CONNECTING : Z := 0.

(** [createWebSocket(url)] *)
Definition createWebSocket (this : BinJSON.t) : BinJSONWebSocket.t :=
  BinJSONWebSocket.create this CONNECTING.

(** ** Vocabulary of the statements about the orchestrator *)

(** Whether the validator of [this], if it has one, accepts [data]. *)
Definition accepts (this : BinJSON.t) (data : json) : bool :=
  match BinJSON.validator this with
  | Some v => SchemaValidator.validateFn v data
  | None => true
  end.

(** The call [serialize] makes to the validator, if it has one. *)
Definition validation_calls (this : BinJSON.t) (data : json) : list call :=
  match BinJSON.validator this with
  | Some _ => [CallValidate data]
  | None => []
  end.

(** The envelope [fromDict] builds when it does not throw. *)
Definition envelope_of (msgpack : Codec) (zlib : Compressor) (now : Z)
    (data : json) (schemaId : Z) (compress : bool) : BinaryJSON.t :=
  {| BinaryJSON.header := MAGIC_NUMBER ++ Buffer.be32 schemaId;
     BinaryJSON.metadata :=
       JObject [ ("schema_id", JNumber schemaId); ("timestamp", JNumber now);
                 ("compression", JString (if compress then "zlib" else "none")) ];
     BinaryJSON.payload :=
       if compress then deflateSync zlib (msgpack_encode msgpack data)
       else msgpack_encode msgpack data |}.

(** * Properties *)

(** ** Envelope construction *)

Section envelope_facts.
Context (msgpack : Codec) (zlib : Compressor).

(** The envelope [fromDict] builds, and when it builds one. *)
Lemma fromDict_Ok (now : Z) (data : json) (schemaId : Z) (compress : bool)
    (e : BinaryJSON.t) :
  BinaryJSON.fromDict msgpack zlib now data schemaId compress = Ok e <->
  0 <= schemaId <= 4294967295
  /\ e = {| BinaryJSON.header := MAGIC_NUMBER ++ Buffer.be32 schemaId;
            BinaryJSON.metadata :=
              JObject [ ("schema_id", JNumber schemaId);
                        ("timestamp", JNumber now);
                        ("compression",
                         JString (if compress then "zlib" else "none")) ];
            BinaryJSON.payload :=
              if compress
              then deflateSync zlib (msgpack_encode msgpack data)
              else msgpack_encode msgpack data |}.
Proof.
  unfold BinaryJSON.fromDict, Buffer.writeUInt32BE.
  destruct (Z.leb_spec 0 schemaId), (Z.leb_spec schemaId 4294967295);
    simpl; split; try discriminate; try (intros [? _]; lia).
  - intros [= <-]. split; [lia|]. by destruct compress.
  - intros [_ ->]. by destruct compress.
Qed.

End envelope_facts.

(** ** C8: the chunker *)

Section chunker.
Context (data : bytes) (n : Z) (Hn : 1 <= n).

(** The slice the loop takes at an index inside the buffer. *)
Lemma slice_window (i : Z) :
  0 <= i -> i < len data ->
  Buffer.slice data i (i + n)
  = take (Z.to_nat n) (drop (Z.to_nat i) data).
Proof.
  intros Hi Hlt. unfold Buffer.slice, Buffer.clamp.
  destruct (Z.ltb_spec i 0); [lia|].
  destruct (Z.ltb_spec (i + n) 0); [lia|].
  rewrite (Z.min_l i) by lia.
  destruct (Z.le_gt_cases (i + n) (len data)).
  - rewrite Z.min_l by lia. f_equal. lia.
  - rewrite Z.min_r by lia.
    rewrite !take_ge; [done| |]; rewrite length_drop; unfold len in *; lia.
Qed.

(** The loop, started at index [i] with enough fuel, ends and appends
    chunks that make up the rest of the buffer from [i], none empty,
    none longer than [n], all but the last of length [n]. *)
Lemma process_loop_spec (fuel : nat) :
  forall (i : Z) (acc : list bytes),
    0 <= i -> len data - i <= Z.of_nat fuel ->
    exists cs : list bytes,
      DataHandler.process_loop fuel data n i acc = Some (acc ++ cs)
      /\ List.concat cs = drop (Z.to_nat i) data
      /\ Forall (fun c => 0 < len c <= n) cs
      /\ full_but_last n cs.
Proof.
  induction fuel as [|fuel IH]; intros i acc Hi Hfuel; simpl.
  - destruct (Z.ltb_spec i (len data)); [lia|].
    exists []. rewrite app_nil_r.
    split; [done|]. split; [|split; [constructor|]].
    + rewrite drop_ge; [done|unfold len in *; lia].
    + intros j c Hj; by rewrite lookup_nil in Hj.
  - destruct (Z.ltb_spec i (len data)) as [Hlt|Hge].
    + destruct (IH (i + n) (acc ++ [Buffer.slice data i (i + n)]))
        as (cs & Hrun & Hcat & Hall & Hfull); [lia|lia|].
      rewrite slice_window in * by lia.
      set (c := take (Z.to_nat n) (drop (Z.to_nat i) data)) in *.
      assert (Hc : 0 < len c <= n).
      { unfold c, len. rewrite length_take, length_drop.
        unfold len in *. lia. }
      exists (c :: cs). rewrite Hrun, <- app_assoc. simpl.
      split; [done|]. split; [|split].
      * rewrite Hcat. unfold c.
        replace (Z.to_nat (i + n)) with (Z.to_nat i + Z.to_nat n)%nat by lia.
        rewrite <- drop_drop. apply take_drop.
      * by constructor.
      * intros [|j] d Hj Hlast; simpl in *.
        -- injection Hj as <-.
           destruct cs as [|c' cs']; [simpl in *; lia|].
           apply Forall_cons in Hall as [Hc' _]. simpl in Hcat.
           assert (Hne : (0 < length (drop (Z.to_nat (i + n)) data))%nat).
           { rewrite <- Hcat, length_app. unfold len in *. lia. }
           rewrite length_drop in Hne.
           unfold c, len. rewrite length_take, length_drop. lia.
        -- apply (Hfull j d Hj). lia.
    + exists []. rewrite app_nil_r.
      split; [done|]. split; [|split; [constructor|]].
      * rewrite drop_ge; [done|unfold len in *; lia].
      * intros j c Hj; by rewrite lookup_nil in Hj.
Qed.

(** The total length of chunks that are full but for the last one. *)
Lemma full_but_last_total (cs : list bytes) (c : bytes) :
  full_but_last n cs -> last cs = Some c ->
  len (List.concat cs) = n * (len cs - 1) + len c.
Proof.
  induction cs as [|d cs IH]; intros Hfull Hlast; [done|].
  destruct cs as [|d' cs'].
  - injection Hlast as ->. simpl. rewrite app_nil_r. unfold len. simpl. lia.
  - assert (Hd : len d = n) by (apply (Hfull 0%nat d); [done|simpl; lia]).
    assert (Hrest : full_but_last n (d' :: cs')).
    { intros j e Hj Hlt. apply (Hfull (S j) e); [done|simpl in *; lia]. }
    specialize (IH Hrest Hlast).
    change (List.concat (d :: d' :: cs')) with (d ++ List.concat (d' :: cs')).
    unfold len in *. rewrite length_app. simpl length in *. lia.
Qed.
End chunker.

(** C8 (as stated, refuted): in batch mode [process] does not return the
    one-element sequence [[b]]. For the two-byte buffer 01 02 it returns
    the buffer itself, which a consumer iterating the result sees as two
    numbers, not as one chunk. *)
Lemma process_batch_not_singleton :
  DataHandler.process DataHandler.default [x01; x02]
    <> Some (Chunks [[x01; x02]])
  /\ DataHandler.process DataHandler.default [x01; x02]
     = Some (Whole [x01; x02])
  /\ elements (Whole [x01; x02]) = [ByteElement x01; ByteElement x02].
Proof. split; [discriminate|split; reflexivity]. Qed.

(** The streaming half of [process], for a chunk size of at least one. *)
Lemma process_stream_chunks (h : DataHandler.t) (b : bytes) :
  1 <= DataHandler.chunkSize h ->
  DataHandler.mode h <> "batch" ->
  exists cs : list bytes,
    DataHandler.process h b = Some (Chunks cs)
    /\ Buffer.concat cs = b
    /\ full_but_last (DataHandler.chunkSize h) cs
    /\ (forall c : bytes,
          last cs = Some c ->
          0 < len c <= DataHandler.chunkSize h
          /\ (len c < DataHandler.chunkSize h ->
              len b mod DataHandler.chunkSize h <> 0))
    /\ sum_list (length <$> cs) = length b.
Proof.
  intros Hn Hmode. unfold DataHandler.process.
  destruct (String.eqb_spec (DataHandler.mode h) "batch") as [|_]; [done|].
  destruct (process_loop_spec b (DataHandler.chunkSize h) Hn (length b) 0 [])
    as (cs & Hrun & Hcat & Hall & Hfull); [lia|unfold len; lia|].
  change (drop (Z.to_nat 0) b) with b in Hcat. simpl in Hrun.
  exists cs. rewrite Hrun.
  split; [done|]. split; [done|]. split; [exact Hfull|]. split.
  - intros c Hlast.
    assert (Hin : c ∈ cs).
    { apply last_Some in Hlast as [cs' ->]. set_solver. }
    split; [by apply (proj1 (Forall_forall _ _) Hall)|].
    intros Hshort.
    pose proof (full_but_last_total _ cs c Hfull Hlast) as Htotal.
    rewrite Hcat in Htotal. rewrite Htotal.
    assert (Hpos : 0 < len c) by (by apply (proj1 (Forall_forall _ _) Hall)).
    rewrite Z.add_comm, Z.mul_comm, Z_mod_plus_full, Z.mod_small; lia.
  - rewrite <- length_concat. unfold Buffer.concat in *. by rewrite Hcat.
Qed.

(** C8 (amended): for a chunk size [n >= 1], [process(b)] returns [b]
    itself in batch mode (the buffer, not a sequence holding it); in
    any other mode it returns ordered slices whose concatenation is
    [b], every slice but the last of length exactly [n], the last of
    length between 1 and [n] and shorter than [n] only when [len b] is
    not a multiple of [n], so that the lengths sum to [len b]. *)
Theorem process_batch_and_stream (h : DataHandler.t) (b : bytes) :
  1 <= DataHandler.chunkSize h ->
  (DataHandler.mode h = "batch" -> DataHandler.process h b = Some (Whole b))
  /\ (DataHandler.mode h <> "batch" ->
      exists cs : list bytes,
        DataHandler.process h b = Some (Chunks cs)
        /\ Buffer.concat cs = b
        /\ (forall (j : nat) (c : bytes),
              cs !! j = Some c -> (S j < length cs)%nat ->
              len c = DataHandler.chunkSize h)
        /\ (forall c : bytes,
              last cs = Some c ->
              0 < len c <= DataHandler.chunkSize h
              /\ (len c < DataHandler.chunkSize h ->
                  len b mod DataHandler.chunkSize h <> 0))
        /\ sum_list (length <$> cs) = length b).
Proof.
  intros Hn. split.
  - intros Hbatch. unfold DataHandler.process. by rewrite Hbatch.
  - intros Hmode. exact (process_stream_chunks h b Hn Hmode).
Qed.

(** A run of C8 (amended) at the chunk size 512 on 2000 bytes: four
    chunks of 512, 512, 512 and 464 bytes. *)
Lemma process_batch_and_stream_witness :
  1 <= 512
  /\ (length <$> default []
        (match DataHandler.process
                 {| DataHandler.mode := "stream"; DataHandler.chunkSize := 512 |}
                 (replicate 2000 x00) with
         | Some (Chunks cs) => Some cs
         | _ => None
         end)) = [512; 512; 512; 464]%nat
  /\ exists cs : list bytes,
       DataHandler.process
         {| DataHandler.mode := "stream"; DataHandler.chunkSize := 512 |}
         (replicate 2000 x00) = Some (Chunks cs)
       /\ Buffer.concat cs = replicate 2000 x00.
Proof.
  split; [lia|]. split; [vm_compute; reflexivity|].
  destruct (process_batch_and_stream
              {| DataHandler.mode := "stream"; DataHandler.chunkSize := 512 |}
              (replicate 2000 x00)) as [_ H]; [simpl; lia|].
  destruct H as (cs & Hrun & Hcat & _); [discriminate|].
  exists cs. split; assumption.
Defined.

(** ** Positions in a buffer *)

(** A byte written from an integer reads back as the integer modulo
    256. *)
Lemma Z_of_byte_of_Z (z : Z) : Z_of_byte (byte_of_Z z) = z mod 256.
Proof.
  unfold Z_of_byte, byte_of_Z.
  assert (Hrange : 0 <= z mod 256 < 256) by (apply Z.mod_pos_bound; lia).
  destruct (Byte.of_N (Z.to_N (z mod 256))) as [b|] eqn:Hb.
  - apply Byte.to_of_N in Hb. rewrite Hb. lia.
  - apply Byte.of_N_None_iff in Hb. lia.
Qed.

Lemma Z_of_byte_range (b : byte) : 0 <= Z_of_byte b < 256.
Proof.
  unfold Z_of_byte. pose proof (Byte.to_N_bounded b). lia.
Qed.

(** The big-endian combination of the four bytes of an unsigned 32-bit
    integer is the integer. *)
Lemma be32_value (v : Z) :
  0 <= v <= 4294967295 ->
  Z.lor (Z.shiftl (Z.shiftr v 24 mod 256) 24)
    (Z.lor (Z.shiftl (Z.shiftr v 16 mod 256) 16)
       (Z.lor (Z.shiftl (Z.shiftr v 8 mod 256) 8) (v mod 256))) = v.
Proof.
  intros Hv. apply Z.bits_inj'. intros n Hn.
  change 256 with (2 ^ 8).
  rewrite !Z.lor_spec, !Z.shiftl_spec by lia.
  rewrite !Z.testbit_mod_pow2 by lia.
  assert (Hhigh : 32 <= n -> Z.testbit v n = false).
  { intros Hbig. destruct (Z.eq_dec v 0) as [->|Hnz]; [apply Z.testbit_0_l|].
    apply Z.bits_above_log2; [lia|].
    assert (Z.log2 v < 32) by (apply Z.log2_lt_pow2; lia). lia. }
  destruct (Z.ltb_spec (n - 24) 8), (Z.ltb_spec (n - 16) 8),
    (Z.ltb_spec (n - 8) 8), (Z.ltb_spec n 8); try lia;
    cbn [andb orb];
    rewrite ?(Z.testbit_neg_r _ (n - 24)), ?(Z.testbit_neg_r _ (n - 16)),
      ?(Z.testbit_neg_r _ (n - 8)) by lia;
    rewrite ?Z.shiftr_spec by lia; cbn [andb orb]; rewrite ?orb_false_r;
    try (f_equal; lia).
  symmetry. apply Hhigh. lia.
Qed.

(** Reading back what [writeUInt32BE] wrote. *)
Lemma readUInt32BE_be32 (prefix suffix : bytes) (v : Z) :
  0 <= v <= 4294967295 ->
  Buffer.readUInt32BE (prefix ++ Buffer.be32 v ++ suffix) (len prefix) = Ok v.
Proof.
  intros Hv. unfold Buffer.readUInt32BE.
  assert (Hlen : len prefix + 4 <= len (prefix ++ Buffer.be32 v ++ suffix)).
  { unfold len. rewrite !length_app. simpl. lia. }
  destruct (Z.leb_spec 0 (len prefix)); [|unfold len in *; lia].
  destruct (Z.leb_spec (len prefix + 4)
              (len (prefix ++ Buffer.be32 v ++ suffix))); [|lia].
  cbn [andb]. unfold len at 1. rewrite Nat2Z.id, drop_app_length.
  unfold Buffer.be32. cbn [app]. rewrite !Z_of_byte_of_Z.
  by rewrite be32_value.
Qed.

(** [buf.slice(0, n)] is the first [n] bytes. *)
Lemma slice_prefix (b : bytes) (n : Z) :
  0 <= n -> Buffer.slice b 0 n = take (Z.to_nat n) b.
Proof.
  intros Hn. unfold Buffer.slice, Buffer.clamp.
  destruct (Z.ltb_spec n 0); [lia|]. simpl (0 <? 0).
  cbv iota.
  assert (H0 : Z.min 0 (len b) = 0) by (unfold len; lia).
  rewrite H0, Z.sub_0_r. change (Z.to_nat 0) with 0%nat. rewrite drop_0.
  destruct (Z.le_gt_cases n (len b)).
  - by rewrite Z.min_l.
  - rewrite Z.min_r by lia. rewrite !take_ge; [done| |]; unfold len in *; lia.
Qed.

(** A slice taken behind a prefix is the slice of the rest. *)
Lemma slice_behind_prefix (h rest : bytes) (a b : Z) :
  0 <= a -> 0 <= b ->
  Buffer.slice (h ++ rest) (len h + a) (len h + b) = Buffer.slice rest a b.
Proof.
  intros Ha Hb. unfold Buffer.slice, Buffer.clamp.
  assert (Hlen : len (h ++ rest) = len h + len rest).
  { unfold len. rewrite length_app. lia. }
  rewrite Hlen.
  destruct (Z.ltb_spec (len h + a) 0), (Z.ltb_spec (len h + b) 0),
    (Z.ltb_spec a 0), (Z.ltb_spec b 0); try (unfold len in *; lia).
  replace (Z.min (len h + a) (len h + len rest))
    with (len h + Z.min a (len rest)) by lia.
  replace (Z.min (len h + b) (len h + len rest))
    with (len h + Z.min b (len rest)) by lia.
  replace (len h + Z.min b (len rest) - (len h + Z.min a (len rest)))
    with (Z.min b (len rest) - Z.min a (len rest)) by lia.
  f_equal. rewrite drop_app.
  rewrite drop_ge by (unfold len in *; lia). cbn [app].
  f_equal. unfold len in *. lia.
Qed.

Lemma readUInt32BE_behind_prefix (h rest : bytes) (offset : Z) :
  0 <= offset ->
  Buffer.readUInt32BE (h ++ rest) (len h + offset)
  = Buffer.readUInt32BE rest offset.
Proof.
  intros Ho. unfold Buffer.readUInt32BE.
  assert (Hlen : len (h ++ rest) = len h + len rest).
  { unfold len. rewrite length_app. lia. }
  rewrite Hlen.
  destruct (Z.leb_spec 0 (len h + offset)), (Z.leb_spec 0 offset);
    try (unfold len in *; lia).
  destruct (Z.leb_spec (len h + offset + 4) (len h + len rest)),
    (Z.leb_spec (offset + 4) (len rest)); try lia; [|reflexivity].
  cbn [andb]. rewrite drop_app.
  rewrite drop_ge by (unfold len in *; lia). cbn [app].
  replace (Z.to_nat (len h + offset) - length h)%nat with (Z.to_nat offset)
    by (unfold len; lia).
  reflexivity.
Qed.

(** ** C1: the bytes written for an envelope *)

Section layout.
Context (msgpack : Codec) (zlib : Compressor).

(** The specified layout is four bytes longer than the three parts of
    an envelope put end to end. *)
Lemma layout_length (schemaId : Z) (metadata : json) (payload : bytes) :
  length (Specified.layout msgpack schemaId metadata payload)
  = (10 + length (msgpack_encode msgpack metadata) + length payload)%nat.
Proof.
  unfold Specified.layout. rewrite !length_app. simpl. lia.
Qed.

(** The bytes of an envelope built by [fromDict]. *)
Lemma wire_of_fromDict (now : Z) (data : json) (schemaId : Z)
    (compress : bool) (e : BinaryJSON.t) :
  BinaryJSON.fromDict msgpack zlib now data schemaId compress = Ok e ->
  wire_of msgpack e
  = MAGIC_NUMBER ++ Buffer.be32 schemaId
      ++ msgpack_encode msgpack (BinaryJSON.metadata e)
      ++ BinaryJSON.payload e.
Proof.
  intros [_ ->]%fromDict_Ok. unfold wire_of, Buffer.concat.
  cbn [List.concat BinaryJSON.header BinaryJSON.metadata BinaryJSON.payload].
  by rewrite app_nil_r, <- !app_assoc.
Qed.

(** [saveToFile] writes the three parts of the envelope end to end. *)
Lemma saveToFile_writes_wire (l : loc) (e : BinaryJSON.t)
    (filepath : string) (w : world) :
  heap w !! l = Some e ->
  exists w' : world,
    saveToFile msgpack l filepath w = (Ok tt, w')
    /\ files w' !! filepath = Some (wire_of msgpack e).
Proof.
  intros Hl. unfold saveToFile, deref, writeFileSync, mbind, M_bind.
  rewrite Hl. eexists. split; [reflexivity|]. cbn [files].
  apply lookup_insert_eq.
Qed.

(** In stream mode with a chunk size of at least one, over an open
    socket, the frames [send] hands to the socket are buffers whose
    concatenation is the three parts of the envelope end to end. *)
Lemma send_stream_frames (this : BinJSONWebSocket.t) (l : loc)
    (e : BinaryJSON.t) (w : world) :
  BinJSONWebSocket.readyState this = BinJSONWebSocket.OPEN ->
  heap w !! l = Some e ->
  DataHandler.mode (BinJSON.handler (BinJSONWebSocket.binjson this))
    <> "batch" ->
  1 <= DataHandler.chunkSize (BinJSON.handler (BinJSONWebSocket.binjson this)) ->
  exists cs : list bytes,
    BinJSONWebSocket.send msgpack this l w
      = Some (BinJSONWebSocket.ws_send this (BufferElement <$> cs), Ok tt, w)
    /\ Buffer.concat cs = wire_of msgpack e.
Proof.
  intros Hopen Hl Hmode Hsize. unfold BinJSONWebSocket.send, deref.
  rewrite Hopen, Hl. cbn [negb Z.eqb BinJSONWebSocket.OPEN Pos.eqb].
  destruct (process_stream_chunks
              (BinJSON.handler (BinJSONWebSocket.binjson this))
              (wire_of msgpack e) Hsize Hmode) as (cs & Hrun & Hcat & _).
  exists cs. unfold wire_of in Hrun. rewrite Hrun.
  split; [reflexivity|exact Hcat].
Qed.

(** C1 (amended): for every envelope whose header is the magic
    constant followed by the schema id, as [fromDict] builds it and
    [serialize] returns it, sealed or not, the bytes [saveToFile]
    writes, and the bytes the chunks of [send] make up in stream mode,
    are in order the magic constant at bytes 0 and 1, the schema id as
    a big-endian unsigned 32-bit integer at bytes 2 to 5, the encoded
    metadata at bytes 6 to 6 + m - 1, where m is the length of the
    encoding, and the payload from byte 6 + m on. They are not the
    specified layout. *)
Theorem envelope_bytes_layout (schemaId : Z) (e : BinaryJSON.t) (l : loc)
    (w : world) :
  0 <= schemaId <= 4294967295 ->
  BinaryJSON.header e = MAGIC_NUMBER ++ Buffer.be32 schemaId ->
  heap w !! l = Some e ->
  let metadata := msgpack_encode msgpack (BinaryJSON.metadata e) in
  let written :=
    MAGIC_NUMBER ++ Buffer.be32 schemaId ++ metadata ++ BinaryJSON.payload e in
  (forall filepath : string,
      exists w' : world,
        saveToFile msgpack l filepath w = (Ok tt, w')
        /\ files w' !! filepath = Some written)
  /\ (forall this : BinJSONWebSocket.t,
         BinJSONWebSocket.readyState this = BinJSONWebSocket.OPEN ->
         DataHandler.mode (BinJSON.handler (BinJSONWebSocket.binjson this))
           <> "batch" ->
         1 <= DataHandler.chunkSize
                (BinJSON.handler (BinJSONWebSocket.binjson this)) ->
         exists cs : list bytes,
           BinJSONWebSocket.send msgpack this l w
             = Some (BinJSONWebSocket.ws_send this (BufferElement <$> cs),
                     Ok tt, w)
           /\ Buffer.concat cs = written)
  /\ Buffer.slice written 0 2 = MAGIC_NUMBER
  /\ Buffer.readUInt32BE written 2 = Ok schemaId
  /\ Buffer.slice written 6 (6 + len metadata) = metadata
  /\ Buffer.slice_from written (6 + len metadata) = BinaryJSON.payload e
  /\ length written
     = (6 + length metadata + length (BinaryJSON.payload e))%nat
  /\ written
     <> Specified.layout msgpack schemaId (BinaryJSON.metadata e)
          (BinaryJSON.payload e).
Proof.
  intros Hid Hheader Hl metadata written.
  assert (Hwire : wire_of msgpack e = written).
  { unfold wire_of, Buffer.concat. cbn [List.concat].
    rewrite Hheader, app_nil_r. unfold written, metadata.
    by rewrite <- !app_assoc. }
  assert (Hlen : length written
                 = (6 + length metadata
                      + length (BinaryJSON.payload e))%nat).
  { unfold written. rewrite !length_app. simpl. lia. }
  assert (Hsplit : written
                   = (MAGIC_NUMBER ++ Buffer.be32 schemaId)
                       ++ metadata ++ BinaryJSON.payload e).
  { unfold written. by rewrite <- app_assoc. }
  assert (H6 : len (MAGIC_NUMBER ++ Buffer.be32 schemaId) = 6) by reflexivity.
  split; [|split; [|split; [|split; [|split; [|split; [|split;
    [exact Hlen|]]]]]]].
  - intros filepath. rewrite <- Hwire. by apply saveToFile_writes_wire.
  - intros this Hopen Hmode Hsize. rewrite <- Hwire.
    by apply send_stream_frames.
  - rewrite slice_prefix by lia. reflexivity.
  - exact (readUInt32BE_be32 MAGIC_NUMBER (metadata ++ BinaryJSON.payload e)
             schemaId Hid).
  - pose proof (slice_behind_prefix (MAGIC_NUMBER ++ Buffer.be32 schemaId)
                  (metadata ++ BinaryJSON.payload e) 0 (len metadata)) as H.
    rewrite H6, <- Hsplit in H. change (6 + 0) with 6 in H.
    rewrite H by (unfold len; lia). rewrite slice_prefix by (unfold len; lia).
    unfold len. rewrite Nat2Z.id. apply take_app_length.
  - unfold Buffer.slice_from.
    assert (Hlenw : len written
                    = 6 + (len metadata + len (BinaryJSON.payload e))).
    { unfold len. rewrite Hlen. lia. }
    rewrite Hlenw.
    pose proof (slice_behind_prefix (MAGIC_NUMBER ++ Buffer.be32 schemaId)
                  (metadata ++ BinaryJSON.payload e) (len metadata)
                  (len metadata + len (BinaryJSON.payload e))) as H.
    rewrite H6, <- Hsplit in H. rewrite H by (unfold len; lia).
    pose proof (slice_behind_prefix metadata (BinaryJSON.payload e) 0
                  (len (BinaryJSON.payload e))) as H'.
    rewrite Z.add_0_r in H'. rewrite H' by (unfold len; lia).
    rewrite slice_prefix by (unfold len; lia).
    unfold len. rewrite Nat2Z.id. apply take_ge. lia.
  - intros H. apply (f_equal length) in H.
    rewrite Hlen, layout_length in H. unfold metadata in H. lia.
Qed.

End layout.

(** C1 (as stated, refuted): the envelope of [{id: 1, name: "Alice"}],
    not compressed, saved by [saveToFile]. The file has 70 bytes, the
    specified layout has 74. Bytes 6 to 9 of the file are 83 a9 73 63,
    the first bytes of the encoded metadata, where the layout has the
    length 48 of the metadata. [loadFromFile] reads those four bytes as
    the length 2208920419 and builds an envelope whose payload is
    empty, not the 16 bytes saved. *)
Lemma saveToFile_is_not_the_specified_layout :
  exists (loaded : BinaryJSON.t) (file : bytes),
    Scenario.save_and_load Scenario.alice false
      = Ok (Some Scenario.alice_envelope, Some file, Some loaded)
    /\ file <> Specified.layout Msgpack.codec 1
                 (BinaryJSON.metadata Scenario.alice_envelope)
                 (BinaryJSON.payload Scenario.alice_envelope)
    /\ length file = 70%nat
    /\ Buffer.slice file 6 10 = [x83; xa9; x73; x63]
    /\ Buffer.slice
         (Specified.layout Msgpack.codec 1
            (BinaryJSON.metadata Scenario.alice_envelope)
            (BinaryJSON.payload Scenario.alice_envelope)) 6 10
       = [x00; x00; x00; x30]
    /\ Buffer.readUInt32BE file 6 = Ok 2208920419
    /\ length (BinaryJSON.payload Scenario.alice_envelope) = 16%nat
    /\ BinaryJSON.payload loaded = [].
Proof.
  do 2 eexists. split; [vm_compute; reflexivity|].
  split; [vm_compute; discriminate|].
  repeat split; vm_compute; reflexivity.
Qed.

(** A run of C1 (amended): the value [{id: 1, name: "Alice"}]
    serialized with [encrypt = true], as the examples do, and saved.
    The envelope is sealed: its payload is the 16 bytes of the IV and
    the 44 characters of Base64 of two blocks of ciphertext. *)
Lemma envelope_bytes_layout_witness :
  exists (l : loc) (w : world) (e : BinaryJSON.t),
    Scenario.serialize Scenario.binjson Scenario.alice 1 false true
      Scenario.initial = (Ok l, w)
    /\ 0 <= 1 <= 4294967295
    /\ BinaryJSON.header e = MAGIC_NUMBER ++ Buffer.be32 1
    /\ heap w !! l = Some e
    /\ length (BinaryJSON.payload e) = 60%nat
    /\ exists w' : world,
         saveToFile Msgpack.codec l "data.bin" w = (Ok tt, w')
         /\ files w' !! "data.bin"
            = Some (MAGIC_NUMBER ++ Buffer.be32 1
                      ++ Msgpack.encode (BinaryJSON.metadata e)
                      ++ BinaryJSON.payload e).
Proof.
  assert (Hrun : exists (l : loc) (w : world) (e : BinaryJSON.t),
             Scenario.serialize Scenario.binjson Scenario.alice 1 false true
               Scenario.initial = (Ok l, w)
             /\ heap w !! l = Some e
             /\ BinaryJSON.header e = MAGIC_NUMBER ++ Buffer.be32 1
             /\ length (BinaryJSON.payload e) = 60%nat).
  { do 3 eexists. split; [vm_compute; reflexivity|].
    split; [vm_compute; reflexivity|]. split; vm_compute; reflexivity. }
  destruct Hrun as (l & w & e & Hrun & Hl & Hheader & Hpayload).
  assert (Hid : 0 <= 1 <= 4294967295) by lia.
  exists l, w, e. split; [exact Hrun|]. split; [exact Hid|].
  split; [exact Hheader|]. split; [exact Hl|]. split; [exact Hpayload|].
  destruct (envelope_bytes_layout Msgpack.codec 1 e l w Hid Hheader Hl)
    as (Hsave & _).
  exact (Hsave "data.bin").
Defined.

(** ** C2: sending an envelope and reassembling it *)

(** C2 (evaluation of the code): the envelope of [{id: 1, name:
    "Alice"}] sent in stream mode and delivered chunk by chunk to a
    fresh wrapper. With chunks of 1024 bytes the single chunk holds the
    whole message, the receiver reads the first four bytes of the
    metadata as its length and keeps an empty payload; with chunks of
    16 or 4 bytes the handler throws on the first chunk and on every
    later one, and the receiver holds no envelope. *)
Theorem send_then_receive_loses_payload :
  Scenario.send_and_receive Scenario.alice false 1024
    = Some (Some Scenario.alice_envelope, 1%nat,
            Some (BinaryJSON.set_payload Scenario.alice_envelope []))
  /\ BinaryJSON.payload Scenario.alice_envelope <> []
  /\ Scenario.send_and_receive Scenario.alice false 16
     = Some (Some Scenario.alice_envelope, 5%nat, None)
  /\ Scenario.send_and_receive Scenario.alice false 4
     = Some (Some Scenario.alice_envelope, 18%nat, None).
Proof.
  split; [vm_compute; reflexivity|]. split; [discriminate|].
  split; vm_compute; reflexivity.
Qed.

(** In batch mode, the mode of a new [BinJSON], [send] iterates the
    buffer [process] returned and hands [ws.send] one number per byte:
    no frame is a chunk. *)
Lemma send_in_batch_mode :
  exists sender' : BinJSONWebSocket.t,
    BinJSONWebSocket.send Msgpack.codec
      (BinJSONWebSocket.create Scenario.binjson BinJSONWebSocket.OPEN)
      1%positive
      (with_heap {[ 1%positive := Scenario.alice_envelope ]} Scenario.initial)
    = Some (sender', Ok tt,
            with_heap {[ 1%positive := Scenario.alice_envelope ]}
              Scenario.initial)
    /\ length (BinJSONWebSocket.sent sender') = 70%nat
    /\ take 2 (BinJSONWebSocket.sent sender')
       = [ByteElement x42; ByteElement x4a]
    /\ buffer_frames (BinJSONWebSocket.sent sender') = [].
Proof.
  eexists. split; [reflexivity|]. repeat split; vm_compute; reflexivity.
Qed.

(** ** C3: the transition of the [onmessage] handler *)

Section reassembler.
Context (msgpack : Codec).

(** The first chunk: everything the handler does with it. *)
Lemma onmessage_first_chunk (this : BinJSONWebSocket.t) (chunk : bytes)
    (w : world) :
  BinJSONWebSocket.chunkBuffer this = [] ->
  BinJSONWebSocket.onmessage msgpack this chunk w
  = let this1 := BinJSONWebSocket.push_chunk this chunk in
    match Buffer.readUInt32BE chunk 6 with
    | Throw e => (this1, Throw e, w)
    | Ok n =>
        match msgpack_decode msgpack (Buffer.slice chunk 6 (6 + n)) with
        | Throw e => (this1, Throw e, w)
        | Ok metadata =>
            let l := fresh (dom (heap w)) in
            (BinJSONWebSocket.set_current this1 (Some l), Ok tt,
             with_heap
               (<[l := {| BinaryJSON.header := Buffer.slice chunk 0 6;
                          BinaryJSON.metadata := metadata;
                          BinaryJSON.payload :=
                            Buffer.slice_from chunk (6 + n) |}]> (heap w))
               w)
        end
    end.
Proof.
  intros Hempty.
  unfold BinJSONWebSocket.onmessage, BinJSONWebSocket.onmessage_body.
  cbn [BinJSONWebSocket.push_chunk BinJSONWebSocket.chunkBuffer].
  rewrite Hempty. cbn [app len length Z.of_nat Z.eqb Pos.eqb Pos.of_succ_nat
                       lookup list_lookup default from_option id].
  unfold mbind, M_bind, lift, new_BinaryJSON, mret, M_ret.
  destruct (Buffer.readUInt32BE chunk 6) as [n|e]; [|reflexivity].
  destruct (msgpack_decode msgpack _) as [metadata|e]; [|reflexivity].
  unfold Buffer.concat. cbn [List.concat]. rewrite app_nil_r. reflexivity.
Qed.

(** Every later chunk. *)
Lemma onmessage_later_chunk (this : BinJSONWebSocket.t) (chunk : bytes)
    (w : world) :
  BinJSONWebSocket.chunkBuffer this <> [] ->
  BinJSONWebSocket.onmessage msgpack this chunk w
  = let this1 := BinJSONWebSocket.push_chunk this chunk in
    match BinJSONWebSocket.currentBinaryJSON this with
    | None => (this1, Throw TypeError, w)
    | Some l =>
        match heap w !! l with
        | None => (this1, Throw TypeError, w)
        | Some e =>
            (BinJSONWebSocket.set_current this1 (Some l), Ok tt,
             with_heap
               (<[l := BinaryJSON.set_payload e
                         (BinaryJSON.payload e ++ chunk)]> (heap w)) w)
        end
    end.
Proof.
  intros Hne.
  unfold BinJSONWebSocket.onmessage, BinJSONWebSocket.onmessage_body.
  cbn [BinJSONWebSocket.push_chunk BinJSONWebSocket.chunkBuffer
       BinJSONWebSocket.currentBinaryJSON].
  destruct (Z.eqb_spec (len (BinJSONWebSocket.chunkBuffer this ++ [chunk])) 1)
    as [Hone|_].
  { unfold len in Hone. rewrite length_app in Hone. simpl in Hone.
    destruct (BinJSONWebSocket.chunkBuffer this); [done|simpl in Hone; lia]. }
  destruct (BinJSONWebSocket.currentBinaryJSON this) as [l|]; [|reflexivity].
  unfold mbind, M_bind, deref, assign_payload, mret, M_ret.
  destruct (heap w !! l) as [e|] eqn:Hl; [|reflexivity].
  cbn [with_heap heap]. rewrite Hl.
  unfold Buffer.concat. cbn [List.concat]. rewrite app_nil_r. reflexivity.
Qed.

End reassembler.


Lemma readUInt32BE_short (b : bytes) (offset : Z) :
  len b < offset + 4 -> Buffer.readUInt32BE b offset = Throw RangeError.
Proof.
  intros Hshort. unfold Buffer.readUInt32BE.
  destruct (Z.leb_spec (offset + 4) (len b)); [lia|].
  by rewrite andb_false_r.
Qed.


Section reassembler_claim.
Context (msgpack : Codec).


End reassembler_claim.


(** ** C1 and C2 on every envelope, with the reference codec *)

Lemma encode_string_schema_id :
  Msgpack.encode_string "schema_id"
  = [xa9; x73; x63; x68; x65; x6d; x61; x5f; x69; x64].
Proof. reflexivity. Qed.

(** The metadata [fromDict] writes starts, once encoded, with the map
    header 83 and the head a9 73 63 of its first key. *)
Lemma encoded_metadata_head (schemaId now : Z) (tag : string) :
  exists rest : bytes,
    Msgpack.encode
      (JObject [ ("schema_id", JNumber schemaId); ("timestamp", JNumber now);
                 ("compression", JString tag) ])
    = x83 :: xa9 :: x73 :: x63 :: rest.
Proof.
  eexists. cbn [Msgpack.encode List.map List.concat].
  rewrite encode_string_schema_id. reflexivity.
Qed.

(** [buf.slice(start)] from the end of the buffer or beyond is empty. *)
Lemma slice_from_beyond (b : bytes) (start : Z) :
  len b <= start -> Buffer.slice_from b start = [].
Proof.
  intros Hstart. unfold Buffer.slice_from, Buffer.slice, Buffer.clamp.
  destruct (Z.ltb_spec start 0); [unfold len in *; lia|].
  destruct (Z.ltb_spec (len b) 0); [unfold len in *; lia|].
  rewrite Z.min_id, Z.min_r by lia. by rewrite Z.sub_diag.
Qed.

Section every_envelope.
Context (zlib : Compressor).

(** What the readers take for the metadata length of an envelope
    built by [fromDict]: always 2208920419, the bytes 83 a9 73 63. *)
Lemma wire_length_field (now : Z) (data : json) (schemaId : Z)
    (compress : bool) (e : BinaryJSON.t) :
  BinaryJSON.fromDict Msgpack.codec zlib now data schemaId compress = Ok e ->
  Buffer.readUInt32BE (wire_of Msgpack.codec e) 6 = Ok 2208920419.
Proof.
  intros [_ ->]%fromDict_Ok. unfold wire_of, Buffer.concat.
  cbn [msgpack_encode Msgpack.codec].
  cbn [BinaryJSON.header BinaryJSON.metadata BinaryJSON.payload List.concat].
  destruct (encoded_metadata_head schemaId now
              (if compress then "zlib" else "none")) as [rest ->].
  unfold Buffer.readUInt32BE, Buffer.be32, MAGIC_NUMBER.
  cbn [app]. set (tail := rest ++ _).
  assert (Hlen : 6 + 4 <= len (x42 :: x4a :: byte_of_Z (Z.shiftr schemaId 24)
                  :: byte_of_Z (Z.shiftr schemaId 16)
                  :: byte_of_Z (Z.shiftr schemaId 8) :: byte_of_Z schemaId
                  :: x83 :: xa9 :: x73 :: x63 :: tail)).
  { unfold len. cbn [length]. lia. }
  destruct (Z.leb_spec (6 + 4) (len (x42 :: x4a
                  :: byte_of_Z (Z.shiftr schemaId 24)
                  :: byte_of_Z (Z.shiftr schemaId 16)
                  :: byte_of_Z (Z.shiftr schemaId 8) :: byte_of_Z schemaId
                  :: x83 :: xa9 :: x73 :: x63 :: tail))); [|lia].
  reflexivity.
Qed.

(** C2, every envelope: a whole message delivered as the first chunk
    to a wrapper. When the handler does not throw, the envelope it
    builds has an empty payload. *)
Lemma onmessage_whole_message (now : Z) (data : json) (schemaId : Z)
    (compress : bool) (e : BinaryJSON.t) (this this' : BinJSONWebSocket.t)
    (w w' : world) :
  BinaryJSON.fromDict Msgpack.codec zlib now data schemaId compress = Ok e ->
  len (wire_of Msgpack.codec e) <= 2208920425 ->
  BinJSONWebSocket.chunkBuffer this = [] ->
  BinJSONWebSocket.onmessage Msgpack.codec this (wire_of Msgpack.codec e) w
    = (this', Ok tt, w') ->
  exists e' : BinaryJSON.t,
    received this' w' = Some e' /\ BinaryJSON.payload e' = [].
Proof.
  intros Hbuilt Hlen Hfirst Hrun.
  rewrite (onmessage_first_chunk _ _ _ _ Hfirst) in Hrun. cbv zeta in Hrun.
  rewrite (wire_length_field _ _ _ _ _ Hbuilt) in Hrun.
  destruct (msgpack_decode Msgpack.codec _) as [metadata|err];
    [|discriminate Hrun].
  injection Hrun as <- <-. eexists. split.
  - unfold received. cbn. apply lookup_insert_eq.
  - cbn [BinaryJSON.payload]. apply slice_from_beyond.
    change (len (wire_of Msgpack.codec e) <= 6 + 2208920419). lia.
Qed.

(** C1, every envelope: when [loadFromFile] reads what [saveToFile]
    wrote and does not throw, the envelope it builds has an empty
    payload. *)
Lemma loadFromFile_reads_no_payload (now : Z) (data : json) (schemaId : Z)
    (compress : bool) (e : BinaryJSON.t) (l l' : loc) (filepath : string)
    (w w' : world) :
  BinaryJSON.fromDict Msgpack.codec zlib now data schemaId compress = Ok e ->
  len (wire_of Msgpack.codec e) <= 2208920425 ->
  heap w !! l = Some e ->
  (saveToFile Msgpack.codec l filepath;;
   loadFromFile Msgpack.codec filepath) w = (Ok l', w') ->
  exists e' : BinaryJSON.t,
    heap w' !! l' = Some e' /\ BinaryJSON.payload e' = [].
Proof.
  intros Hbuilt Hlen Hl.
  unfold saveToFile, loadFromFile, deref, writeFileSync, readFileSync.
  unfold mbind, M_bind, lift, new_BinaryJSON. rewrite Hl.
  cbn [files heap]. rewrite lookup_insert_eq.
  change (Buffer.concat [ BinaryJSON.header e;
                          msgpack_encode Msgpack.codec (BinaryJSON.metadata e);
                          BinaryJSON.payload e ]) with (wire_of Msgpack.codec e).
  rewrite (wire_length_field _ _ _ _ _ Hbuilt).
  destruct (msgpack_decode Msgpack.codec _) as [metadata|err];
    [|discriminate].
  intros [= <- <-]. eexists. split.
  - cbn. apply lookup_insert_eq.
  - cbn [BinaryJSON.payload]. apply slice_from_beyond.
    change (len (wire_of Msgpack.codec e) <= 6 + 2208920419). lia.
Qed.

End every_envelope.

(** ** C4 and C7: the envelope codec *)

Section envelope_codec.
Context (msgpack : Codec) (zlib : Compressor).

(** C4: for a schema id that fits the header and a value the codec
    and the compressor carry faithfully, [toDict] applied to the
    envelope [fromDict] builds returns the value, with and without
    compression. *)
Theorem toDict_fromDict (now : Z) (v : json) (s : Z) (compress : bool) :
  0 <= s <= 4294967295 ->
  msgpack_decode msgpack (msgpack_encode msgpack v) = Ok v ->
  (compress = true ->
   inflateSync zlib (deflateSync zlib (msgpack_encode msgpack v))
     = Ok (msgpack_encode msgpack v)) ->
  exists e : BinaryJSON.t,
    BinaryJSON.fromDict msgpack zlib now v s compress = Ok e
    /\ BinaryJSON.toDict msgpack zlib e = Ok v.
Proof.
  intros Hs Hcodec Hzlib. eexists. split.
  - apply fromDict_Ok. split; [exact Hs|reflexivity].
  - unfold BinaryJSON.toDict. cbn -[String.eqb].
    destruct compress; cbn.
    + rewrite Hzlib by reflexivity. exact Hcodec.
    + exact Hcodec.
Qed.

(** C7 (amended): [toDict] never fails on the compression tag. With a
    tag other than ['zlib'], recognised or not, it takes the payload
    as uncompressed and returns what [msgpack.decode] returns for it.
    With the tag ['zlib'] it decodes the inflated payload. When
    inflating or decoding fails, the error of zlib or msgpack-lite
    leaves [toDict] unchanged. *)
Theorem toDict_tag_and_errors (e : BinaryJSON.t)
    (fields : list (string * json)) :
  BinaryJSON.metadata e = JObject fields ->
  (strict_equals_string (assoc "compression" fields) "zlib" = false ->
   BinaryJSON.toDict msgpack zlib e
     = msgpack_decode msgpack (BinaryJSON.payload e))
  /\ (assoc "compression" fields = Some (JString "zlib") ->
      (forall b : bytes,
          inflateSync zlib (BinaryJSON.payload e) = Ok b ->
          BinaryJSON.toDict msgpack zlib e = msgpack_decode msgpack b)
      /\ (forall err : error,
             inflateSync zlib (BinaryJSON.payload e) = Throw err ->
             BinaryJSON.toDict msgpack zlib e = Throw err)).
Proof.
  intros Hmeta. unfold BinaryJSON.toDict. rewrite Hmeta.
  cbn [get_property mbind result_bind]. split.
  - intros ->. reflexivity.
  - intros ->. cbn. split; intros ? ->; reflexivity.
Qed.

End envelope_codec.

(** A run of C4: [{id: 1, name: "Alice"}], schema id 1, compressed. *)
Lemma toDict_fromDict_witness :
  0 <= 1 <= 4294967295
  /\ Msgpack.decode (Msgpack.encode Scenario.alice) = Ok Scenario.alice
  /\ ZlibStored.inflate (ZlibStored.deflate (Msgpack.encode Scenario.alice))
     = Ok (Msgpack.encode Scenario.alice)
  /\ exists e : BinaryJSON.t,
       BinaryJSON.fromDict Msgpack.codec ZlibStored.zlib 1700000000000
         Scenario.alice 1 true = Ok e
       /\ BinaryJSON.toDict Msgpack.codec ZlibStored.zlib e = Ok Scenario.alice.
Proof.
  split; [lia|]. split; [reflexivity|]. split; [reflexivity|].
  apply (toDict_fromDict Msgpack.codec ZlibStored.zlib 1700000000000
           Scenario.alice 1 true); [lia|reflexivity|reflexivity].
Defined.

(** C7 (as stated, refuted): an envelope tagged ['gzip'], a tag the code
    does not know, whose payload is the MessagePack encoding of a value:
    [toDict] returns the value. And a payload that does not decode (the
    invalid type byte c1) makes [toDict] fail with the error thrown by
    msgpack-lite, which is none of the classes of the library. *)
Lemma toDict_unrecognized_tag_returns :
  let tagged (tag : string) (payload : bytes) :=
    {| BinaryJSON.header := [x42; x4a; x00; x00; x00; x01];
       BinaryJSON.metadata :=
         JObject [ ("schema_id", JNumber 1);
                   ("timestamp", JNumber 1700000000000);
                   ("compression", JString tag) ];
       BinaryJSON.payload := payload |} in
  BinaryJSON.toDict Msgpack.codec ZlibStored.zlib
    (tagged "gzip" (Msgpack.encode Scenario.alice)) = Ok Scenario.alice
  /\ BinaryJSON.toDict Msgpack.codec ZlibStored.zlib (tagged "none" [xc1])
     = Throw (LibraryError "msgpack decode").
Proof. split; reflexivity. Qed.

(** A run of C7 (amended) on the envelope tagged ['gzip']. *)
Lemma toDict_tag_and_errors_witness :
  let e := {| BinaryJSON.header := [x42; x4a; x00; x00; x00; x01];
              BinaryJSON.metadata := JObject [("compression", JString "gzip")];
              BinaryJSON.payload := [x2a] |} in
  BinaryJSON.metadata e = JObject [("compression", JString "gzip")]
  /\ strict_equals_string
       (assoc "compression" [("compression", JString "gzip")]) "zlib" = false
  /\ BinaryJSON.toDict Msgpack.codec ZlibStored.zlib e = Ok (JNumber 42).
Proof.
  intros e. split; [reflexivity|]. split; [reflexivity|].
  destruct (toDict_tag_and_errors Msgpack.codec ZlibStored.zlib e
              [("compression", JString "gzip")] eq_refl) as [Hother _].
  rewrite (Hother eq_refl). reflexivity.
Defined.

(** ** C5 and C6: the security manager *)

(** The two hexadecimal digits of a byte, read back. *)
Lemma hex_digits_of_byte (x : byte) :
  Hex.value (Hex.digit (Z.shiftr (Z_of_byte x) 4))
    = Some (Z.shiftr (Z_of_byte x) 4)
  /\ Hex.value (Hex.digit (Z.land (Z_of_byte x) 15))
     = Some (Z.land (Z_of_byte x) 15)
  /\ byte_of_Z (16 * Z.shiftr (Z_of_byte x) 4 + Z.land (Z_of_byte x) 15) = x.
Proof. destruct x; vm_compute; repeat split; reflexivity. Qed.

(** Reading back the hexadecimal text of a buffer gives the buffer. *)
Lemma hex_parse_stringify (b : bytes) : Hex.parse (Hex.stringify b) = b.
Proof.
  unfold Hex.parse, Hex.stringify.
  rewrite String.list_byte_of_string_of_list_byte.
  induction b as [|x b IH]; [reflexivity|].
  cbn [List.map List.concat app Hex.parse_digits].
  destruct (hex_digits_of_byte x) as (-> & -> & ->). by rewrite IH.
Qed.

(** Four characters of Base64 text for every three bytes, or part of
    three. *)
Lemma base64_length (n : nat) :
  forall b : bytes,
    (length b <= n)%nat ->
    (4 * length b <= 3 * length (Base64.stringify_bytes b))%nat.
Proof.
  induction n as [|n IH]; intros b Hb.
  - destruct b; [simpl; lia|simpl in Hb; lia].
  - destruct b as [|x [|y [|z rest]]]; try (simpl; lia).
    assert (Hrest : (length rest <= n)%nat) by (simpl in Hb; lia).
    specialize (IH rest Hrest).
    change (Base64.stringify_bytes (x :: y :: z :: rest))
      with (Base64.char (Z.shiftr (Z.lor (Z.shiftl (Z_of_byte x) 16)
                 (Z.lor (Z.shiftl (Z_of_byte y) 8) (Z_of_byte z))) 18)
            :: Base64.char (Z.land (Z.shiftr (Z.lor (Z.shiftl (Z_of_byte x) 16)
                 (Z.lor (Z.shiftl (Z_of_byte y) 8) (Z_of_byte z))) 12) 63)
            :: Base64.char (Z.land (Z.shiftr (Z.lor (Z.shiftl (Z_of_byte x) 16)
                 (Z.lor (Z.shiftl (Z_of_byte y) 8) (Z_of_byte z))) 6) 63)
            :: Base64.char (Z.land (Z.lor (Z.shiftl (Z_of_byte x) 16)
                 (Z.lor (Z.shiftl (Z_of_byte y) 8) (Z_of_byte z))) 63)
            :: Base64.stringify_bytes rest).
    cbn [length]. lia.
Qed.

(** Base64 text is longer than the bytes it renders. *)
Lemma base64_text_differs (b : bytes) :
  b <> [] -> Buffer_from_utf8 (Base64.stringify b) <> b.
Proof.
  intros Hne Heq. unfold Buffer_from_utf8, Base64.stringify in Heq.
  rewrite String.list_byte_of_string_of_list_byte in Heq.
  pose proof (base64_length (length b) b (le_n _)) as Hlen.
  rewrite Heq in Hlen. destruct b; [done|simpl in Hlen; lia].
Qed.

Section security.
Context (cipher : Cipher).

(** What [encrypt] returns once the IV is drawn. *)
Lemma encrypt_with_iv_Ok (this : SecurityManager.t) (iv data : bytes) :
  SecurityManager.encrypt_with_iv cipher this iv data
  = match aes_encrypt cipher data (Utf8_parse (SecurityManager.key this)) iv with
    | Ok ciphertext =>
        Ok (iv ++ Buffer_from_utf8 (Base64.stringify ciphertext))
    | Throw e => Throw (SecurityError ("Encryption failed: " +:+ message e))
    end.
Proof.
  unfold SecurityManager.encrypt_with_iv.
  destruct (aes_encrypt cipher _ _ _) as [ciphertext|err]; [|reflexivity].
  cbn. unfold Buffer.concat. cbn [List.concat].
  by rewrite hex_parse_stringify, app_nil_r.
Qed.

(** C6 (amended): the sealed payload [encrypt] returns is the 16 raw
    bytes of the IV it drew, followed immediately by the Base64 text
    of the ciphertext, as the bytes of that text. *)
Theorem encrypt_layout (this : SecurityManager.t) (data : bytes)
    (w : world) (ciphertext : bytes) :
  aes_encrypt cipher data (Utf8_parse (SecurityManager.key this))
    (next_random 16 w) = Ok ciphertext ->
  exists w' : world,
    SecurityManager.encrypt cipher this data w
      = (Ok (next_random 16 w
               ++ Buffer_from_utf8 (Base64.stringify ciphertext)), w')
    /\ length (next_random 16 w) = 16%nat.
Proof.
  intros Hct. eexists. split; [|reflexivity].
  unfold SecurityManager.encrypt, mbind, M_bind, random, lift.
  by rewrite encrypt_with_iv_Ok, Hct.
Qed.

(** With a ciphertext that is not empty, the sealed payload is never
    the canonical one. *)
Lemma encrypt_never_canonical (this : SecurityManager.t) (iv data : bytes)
    (ciphertext : bytes) :
  aes_encrypt cipher data (Utf8_parse (SecurityManager.key this)) iv
    = Ok ciphertext ->
  ciphertext <> [] ->
  SecurityManager.encrypt_with_iv cipher this iv data
  <> Specified.sealed cipher (Utf8_parse (SecurityManager.key this)) iv data.
Proof.
  intros Hct Hne. rewrite encrypt_with_iv_Ok. unfold Specified.sealed.
  rewrite Hct. cbn. intros [= H%app_inv_head].
  by apply (base64_text_differs ciphertext).
Qed.

(** [decrypt] cuts its input at byte 32: the IV it hands to the cipher
    is the 16 bytes of the real IV followed by the first 16
    characters of the ciphertext text, and the ciphertext it hands
    over is parsed from the text without those characters. *)
Lemma decrypt_splits_at_32 (this : SecurityManager.t) (iv text : bytes) :
  length iv = 16%nat -> (16 <= length text)%nat ->
  SecurityManager.decrypt cipher this (iv ++ text)
  = SecurityManager.try_catch "Decryption failed"
      (decrypted ← aes_decrypt cipher
                     (OpenSSL.parse (Buffer_toString_utf8 (drop 16 text)))
                     (Utf8_parse (SecurityManager.key this))
                     (iv ++ take 16 text);
       s ← Utf8.stringify decrypted;
       Ok (Buffer_from_utf8 s)).
Proof.
  intros Hiv Htext. unfold SecurityManager.decrypt, SecurityManager.AES_decrypt.
  rewrite hex_parse_stringify.
  assert (Hlen : len (iv ++ text) = 16 + len text).
  { unfold len. rewrite length_app. lia. }
  assert (Hhead : Buffer.slice (iv ++ text) 0 32 = iv ++ take 16 text).
  { rewrite slice_prefix by lia. change (Z.to_nat 32) with 32%nat.
    rewrite take_app, Hiv. rewrite take_ge by lia. reflexivity. }
  assert (Htail : Buffer.slice_from (iv ++ text) 32 = drop 16 text).
  { unfold Buffer.slice_from, Buffer.slice, Buffer.clamp.
    destruct (Z.ltb_spec (len (iv ++ text)) 0); [unfold len in *; lia|].
    cbn [Z.ltb Z.compare]. rewrite Z.min_id.
    rewrite Z.min_l by (rewrite Hlen; unfold len; lia).
    change (Z.to_nat 32) with 32%nat.
    rewrite drop_app, Hiv. rewrite (drop_ge iv) by lia.
    cbn [app]. apply take_ge. rewrite length_drop, Hlen. unfold len. lia. }
  by rewrite Hhead, Htail.
Qed.

(** Whatever the cipher does, the bytes [decrypt] returns are
    well-formed UTF-8. *)
Lemma decrypt_returns_text (this : SecurityManager.t) (data b : bytes) :
  SecurityManager.decrypt cipher this data = Ok b ->
  Utf8.well_formed (length b) b = true.
Proof.
  unfold SecurityManager.decrypt.
  destruct (SecurityManager.AES_decrypt cipher _ _ _) as [decrypted|err];
    [|discriminate].
  cbn. unfold Utf8.stringify.
  destruct (Utf8.well_formed (length decrypted) decrypted) eqn:Hwf;
    [|discriminate].
  cbn. unfold Buffer_from_utf8.
  rewrite String.list_byte_of_string_of_list_byte. by intros [= <-].
Qed.

(** C5 (evaluation of the code): for bytes that are not well-formed
    UTF-8, and whatever the cipher, [decrypt] applied to what
    [encrypt] returned does not give the bytes back. *)
Theorem decrypt_encrypt_not_identity (this : SecurityManager.t)
    (b sealed : bytes) (w w' : world) :
  Utf8.well_formed (length b) b = false ->
  SecurityManager.encrypt cipher this b w = (Ok sealed, w') ->
  SecurityManager.decrypt cipher this sealed <> Ok b.
Proof.
  intros Hwf _ Hback. apply decrypt_returns_text in Hback. congruence.
Qed.

End security.

(** A run of C5: the MessagePack bytes of [{id: 1, name: "Alice"}],
    which start with the byte 82 and are not UTF-8 text, sealed with
    the reference cipher. *)
Lemma decrypt_encrypt_not_identity_witness :
  let this := BinJSON.security Scenario.binjson in
  let b := Msgpack.encode Scenario.alice in
  Utf8.well_formed (length b) b = false
  /\ exists (sealed : bytes) (w' : world),
       SecurityManager.encrypt XorCbc.cipher this b Scenario.initial
         = (Ok sealed, w')
       /\ SecurityManager.decrypt XorCbc.cipher this sealed <> Ok b.
Proof.
  intros this b. split; [reflexivity|].
  destruct (SecurityManager.encrypt XorCbc.cipher this b Scenario.initial)
    as [[sealed|err] w'] eqn:Hseal; [|discriminate Hseal].
  exists sealed, w'. split; [reflexivity|].
  apply (decrypt_encrypt_not_identity XorCbc.cipher this b sealed
           Scenario.initial w'); [reflexivity|exact Hseal].
Defined.

(** C5 (evaluation, the split at byte 32): the text "hi", which is
    UTF-8, sealed and opened with the reference cipher under one key.
    The sealed payload is 16 bytes of IV and 24 characters of Base64;
    [decrypt] takes 32 bytes as IV, is left with 8 characters, that is
    4 bytes of ciphertext, and returns the empty buffer, not the text. *)
Lemma decrypt_encrypt_reference_run :
  let this := BinJSON.security Scenario.binjson in
  exists (sealed : bytes) (w' : world),
    SecurityManager.encrypt XorCbc.cipher this [x68; x69] Scenario.initial
      = (Ok sealed, w')
    /\ length sealed = 40%nat
    /\ length (OpenSSL.parse
                 (Buffer_toString_utf8 (Buffer.slice_from sealed 32))) = 4%nat
    /\ SecurityManager.decrypt XorCbc.cipher this sealed = Ok []
    /\ SecurityManager.decrypt XorCbc.cipher this sealed <> Ok [x68; x69].
Proof.
  do 2 eexists. split; [vm_compute; reflexivity|].
  split; [vm_compute; reflexivity|]. split; [vm_compute; reflexivity|].
  split; [vm_compute; reflexivity|vm_compute; discriminate].
Qed.

(** C6 (as stated, refuted): the two bytes "hi" sealed with the
    reference cipher. The canonical layout is the IV followed by the 16
    raw bytes of the ciphertext, 32 bytes in all; [encrypt] returns the
    IV followed by the 24 characters of the Base64 text of the
    ciphertext, 40 bytes in all. *)
Lemma encrypt_is_not_the_canonical_layout :
  let this := BinJSON.security Scenario.binjson in
  let iv := next_random 16 Scenario.initial in
  exists sealed canonical ciphertext : bytes,
    fst (SecurityManager.encrypt XorCbc.cipher this [x68; x69] Scenario.initial)
      = Ok sealed
    /\ Specified.sealed XorCbc.cipher (Utf8_parse (SecurityManager.key this))
         iv [x68; x69] = Ok canonical
    /\ canonical = iv ++ ciphertext
    /\ sealed = iv ++ Buffer_from_utf8 (Base64.stringify ciphertext)
    /\ length canonical = 32%nat
    /\ length sealed = 40%nat
    /\ sealed <> canonical.
Proof.
  intros this iv.
  exists (iv ++ Buffer_from_utf8
                  (Base64.stringify
                     (drop 16 (default []
                        (match Specified.sealed XorCbc.cipher
                                 (Utf8_parse (SecurityManager.key this)) iv
                                 [x68; x69] with
                         | Ok c => Some c
                         | Throw _ => None
                         end))))).
  do 2 eexists.
  split; [vm_compute; reflexivity|]. split; [vm_compute; reflexivity|].
  split; [vm_compute; reflexivity|]. split; [vm_compute; reflexivity|].
  split; [vm_compute; reflexivity|]. split; [vm_compute; reflexivity|].
  vm_compute. discriminate.
Qed.

(** A run of C6 (amended) in the same world. *)
Lemma encrypt_layout_witness :
  let this := BinJSON.security Scenario.binjson in
  let iv := next_random 16 Scenario.initial in
  exists ciphertext : bytes,
    aes_encrypt XorCbc.cipher [x68; x69]
      (Utf8_parse (SecurityManager.key this)) iv = Ok ciphertext
    /\ fst (SecurityManager.encrypt XorCbc.cipher this [x68; x69]
              Scenario.initial)
       = Ok (iv ++ Buffer_from_utf8 (Base64.stringify ciphertext)).
Proof.
  intros this iv.
  destruct (aes_encrypt XorCbc.cipher [x68; x69]
              (Utf8_parse (SecurityManager.key this)) iv)
    as [ciphertext|err] eqn:Hct; [|discriminate Hct].
  exists ciphertext. split; [reflexivity|].
  destruct (encrypt_layout XorCbc.cipher this [x68; x69] Scenario.initial
              ciphertext Hct) as (w' & Hrun & _).
  by rewrite Hrun.
Defined.

(** ** C9 and C10: the orchestrator *)

Section orchestrator.
Context (msgpack : Codec) (zlib : Compressor) (cipher : Cipher).

(** C9: with a schema configured, [serialize] of a value the
    validator rejects raises [SchemaError] and the only call made is
    the one to [validate]: [fromDict] and [encrypt] are not called, no
    envelope is allocated and no randomness is drawn. *)
Theorem serialize_rejects_before_encoding (this : BinJSON.t)
    (v : SchemaValidator.t) (data : json) (schemaId : Z)
    (compress encrypt : bool) (w : world) :
  BinJSON.validator this = Some v ->
  SchemaValidator.validateFn v data = false ->
  exists (message : string) (w' : world),
    BinJSON.serialize msgpack zlib cipher this data schemaId compress
      encrypt w = (Throw (SchemaError message), w')
    /\ calls w' = calls w ++ [CallValidate data]
    /\ (forall c : call, c ∈ calls w' -> c ∈ calls w \/ c = CallValidate data)
    /\ heap w' = heap w
    /\ consumed w' = consumed w.
Proof.
  intros Hv Hreject.
  unfold BinJSON.serialize, SchemaValidator.validate. rewrite Hv, Hreject.
  cbn. do 2 eexists. split; [reflexivity|]. cbn.
  split; [reflexivity|]. split; [|split; reflexivity].
  intros c [Hc|Hc%list_elem_of_singleton]%elem_of_app; [by left|by right].
Qed.

(** [deserialize] with [decrypt = true] on a reference to [e]. *)
Lemma deserialize_decrypt (this : BinJSON.t) (l : loc) (e : BinaryJSON.t)
    (w : world) :
  heap w !! l = Some e ->
  BinJSON.deserialize msgpack zlib cipher this l true w
  = match SecurityManager.decrypt cipher (BinJSON.security this)
            (BinaryJSON.payload e) with
    | Ok opened =>
        (BinaryJSON.toDict msgpack zlib (BinaryJSON.set_payload e opened),
         with_calls
           (calls w ++ [CallDecrypt (BinaryJSON.payload e); CallToDict l])
           (with_heap (<[l := BinaryJSON.set_payload e opened]> (heap w)) w))
    | Throw err =>
        (Throw err,
         with_calls (calls w ++ [CallDecrypt (BinaryJSON.payload e)]) w)
    end.
Proof.
  intros Hl.
  unfold BinJSON.deserialize, BinJSON.call_decrypt, BinJSON.call_toDict.
  unfold mbind, M_bind, deref, log, lift, assign_payload, mret, M_ret.
  cbn [heap with_heap with_calls calls]. rewrite Hl.
  destruct (SecurityManager.decrypt cipher _ _) as [opened|err];
    [|reflexivity].
  cbn [heap with_heap with_calls calls]. rewrite Hl.
  cbn [heap with_heap with_calls calls]. rewrite lookup_insert_eq.
  unfold with_calls, with_heap. cbn. by rewrite <- app_assoc.
Qed.

(** C10: [deserialize] with [decrypt = true] stores the decrypted
    bytes in the payload field of the envelope object it was given,
    before it decodes, whether or not decoding then succeeds; header
    and metadata are kept. A second [deserialize] of the same object
    with [decrypt = true] hands the already decrypted payload, not
    the sealed one, to [decrypt]. *)
Theorem deserialize_overwrites_payload (this : BinJSON.t) (l : loc)
    (e : BinaryJSON.t) (opened : bytes) (w : world) :
  heap w !! l = Some e ->
  SecurityManager.decrypt cipher (BinJSON.security this)
    (BinaryJSON.payload e) = Ok opened ->
  exists w1 : world,
    BinJSON.deserialize msgpack zlib cipher this l true w
      = (BinaryJSON.toDict msgpack zlib
           {| BinaryJSON.header := BinaryJSON.header e;
              BinaryJSON.metadata := BinaryJSON.metadata e;
              BinaryJSON.payload := opened |}, w1)
    /\ heap w1 !! l
       = Some {| BinaryJSON.header := BinaryJSON.header e;
                 BinaryJSON.metadata := BinaryJSON.metadata e;
                 BinaryJSON.payload := opened |}
    /\ calls w1
       = calls w ++ [CallDecrypt (BinaryJSON.payload e); CallToDict l]
    /\ exists (r2 : result json) (w2 : world) (rest : list call),
         BinJSON.deserialize msgpack zlib cipher this l true w1 = (r2, w2)
         /\ calls w2 = calls w1 ++ CallDecrypt opened :: rest
         /\ (forall err : error,
                SecurityManager.decrypt cipher (BinJSON.security this)
                  opened = Throw err ->
                r2 = Throw err /\ heap w2 = heap w1).
Proof.
  intros Hl Hopen. rewrite (deserialize_decrypt this l e w Hl), Hopen.
  eexists. split; [reflexivity|].
  assert (Hl1 : heap (with_calls
                        (calls w ++ [CallDecrypt (BinaryJSON.payload e);
                                     CallToDict l])
                        (with_heap
                           (<[l := BinaryJSON.set_payload e opened]> (heap w))
                           w)) !! l
                = Some (BinaryJSON.set_payload e opened))
    by apply lookup_insert_eq.
  split; [exact Hl1|]. split; [reflexivity|].
  rewrite (deserialize_decrypt this l _ _ Hl1).
  cbn [BinaryJSON.payload BinaryJSON.set_payload].
  destruct (SecurityManager.decrypt cipher (BinJSON.security this) opened)
    as [opened2|err2].
  - do 3 eexists. split; [reflexivity|]. split; [reflexivity|]. discriminate.
  - do 3 eexists. split; [reflexivity|]. split; [reflexivity|].
    intros err [= <-]. split; reflexivity.
Qed.

End orchestrator.

(** A run of C9: the value [{id: 1}], which lacks the required [name],
    under the schema of the examples. *)
Lemma serialize_rejects_before_encoding_witness :
  let data := JObject [("id", JNumber 1)] in
  BinJSON.validator Scenario.binjson = Some Scenario.required_id_name
  /\ SchemaValidator.validateFn Scenario.required_id_name data = false
  /\ exists (message : string) (w' : world),
       Scenario.serialize Scenario.binjson data 1 true true Scenario.initial
         = (Throw (SchemaError message), w')
       /\ calls w' = [CallValidate data]
       /\ heap w' = ∅.
Proof.
  intros data. split; [reflexivity|]. split; [reflexivity|].
  destruct (serialize_rejects_before_encoding Msgpack.codec ZlibStored.zlib
              XorCbc.cipher Scenario.binjson Scenario.required_id_name data
              1 true true Scenario.initial eq_refl eq_refl)
    as (message & w' & Hrun & Hcalls & _ & Hheap & _).
  exists message, w'. split; [exact Hrun|]. split; assumption.
Defined.

(** A run of C10: an envelope whose payload [decrypt] opens to the byte
    2a. The first [deserialize] returns 42 and leaves 2a as the payload
    of the object; the second one hands 2a, not the sealed payload, to
    [decrypt]. *)
Lemma deserialize_overwrites_payload_witness :
  let e := Scenario.sealed_envelope in
  let w := with_heap {[ 1%positive := e ]} Scenario.initial in
  heap w !! 1%positive = Some e
  /\ SecurityManager.decrypt XorCbc.cipher (BinJSON.security Scenario.binjson)
       (BinaryJSON.payload e) = Ok [x2a]
  /\ exists w1 w2 : world,
       Scenario.deserialize Scenario.binjson 1%positive true w
         = (Ok (JNumber 42), w1)
       /\ BinaryJSON.payload <$> heap w1 !! 1%positive = Some [x2a]
       /\ exists (r2 : result json) (rest : list call),
            Scenario.deserialize Scenario.binjson 1%positive true w1
              = (r2, w2)
            /\ calls w2 = calls w1 ++ CallDecrypt [x2a] :: rest.
Proof.
  intros e w.
  assert (Hl : heap w !! 1%positive = Some e) by apply lookup_singleton_eq.
  assert (Hopen : SecurityManager.decrypt XorCbc.cipher
                    (BinJSON.security Scenario.binjson) (BinaryJSON.payload e)
                  = Ok [x2a]) by (vm_compute; reflexivity).
  split; [exact Hl|]. split; [exact Hopen|].
  destruct (deserialize_overwrites_payload Msgpack.codec ZlibStored.zlib
              XorCbc.cipher Scenario.binjson 1%positive e [x2a] w Hl Hopen)
    as (w1 & Hrun & Hheap & _ & r2 & w2 & rest & Hrun2 & Hcalls2 & _).
  exists w1, w2. split; [exact Hrun|]. split; [by rewrite Hheap|].
  exists r2, rest. split; [exact Hrun2|exact Hcalls2].
Defined.

(** * Further properties of the code *)

(** ** The header of an envelope *)

Section header.
Context (msgpack : Codec) (zlib : Compressor).

(** X1: for a schema id that is an unsigned 32-bit integer, [fromDict]
    builds an envelope whose header has six bytes, starts with the
    magic bytes 42 4a and carries the schema id: [readUInt32BE(2)] on
    the header gives the schema id back, the same number as the
    [schema_id] of the metadata. *)
Theorem fromDict_header_carries_schema_id (now : Z) (data : json)
    (schemaId : Z) (compress : bool) :
  0 <= schemaId <= 4294967295 ->
  exists e : BinaryJSON.t,
    BinaryJSON.fromDict msgpack zlib now data schemaId compress = Ok e
    /\ length (BinaryJSON.header e) = 6%nat
    /\ Buffer.slice (BinaryJSON.header e) 0 2 = MAGIC_NUMBER
    /\ Buffer.readUInt32BE (BinaryJSON.header e) 2 = Ok schemaId
    /\ get_property (BinaryJSON.metadata e) "schema_id"
       = Ok (Some (JNumber schemaId)).
Proof.
  intros Hs. eexists. split; [apply fromDict_Ok; split; [exact Hs|reflexivity]|].
  cbn [BinaryJSON.header BinaryJSON.metadata].
  split; [reflexivity|]. split; [reflexivity|]. split; [|reflexivity].
  pose proof (readUInt32BE_be32 MAGIC_NUMBER [] schemaId Hs) as Hread.
  by rewrite app_nil_r in Hread.
Qed.

End header.

(** A run of X1 with the schema id 258. *)
Lemma fromDict_header_carries_schema_id_witness :
  0 <= 258 <= 4294967295
  /\ exists e : BinaryJSON.t,
       BinaryJSON.fromDict Msgpack.codec ZlibStored.zlib 1700000000000
         Scenario.alice 258 true = Ok e
       /\ BinaryJSON.header e = [x42; x4a; x00; x00; x01; x02]
       /\ Buffer.readUInt32BE (BinaryJSON.header e) 2 = Ok 258.
Proof.
  split; [lia|].
  destruct (fromDict_header_carries_schema_id Msgpack.codec ZlibStored.zlib
              1700000000000 Scenario.alice 258 true) as (e & He & _ & _ & Hread & _);
    [lia|].
  exists e. split; [exact He|]. split; [|exact Hread].
  apply fromDict_Ok in He as [_ ->]. reflexivity.
Defined.

(** ** The orchestrator: [serialize] and [deserialize] *)

Section serialize.
Context (msgpack : Codec) (zlib : Compressor) (cipher : Cipher).

(** [serialize] up to the call of [fromDict], for a value the validator
    accepts. *)
Lemma serialize_validated (this : BinJSON.t) (data : json) (schemaId : Z)
    (compress encrypt : bool) (w : world) :
  accepts this data = true ->
  BinJSON.serialize msgpack zlib cipher this data schemaId compress encrypt w
  = let w1 := with_calls (calls w ++ validation_calls this data
                            ++ [CallFromDict data schemaId compress]) w in
    match BinaryJSON.fromDict msgpack zlib (clock w) data schemaId compress with
    | Throw err => (Throw err, w1)
    | Ok e =>
        let l := fresh (dom (heap w)) in
        let w2 := with_heap (<[l := e]> (heap w)) w1 in
        if encrypt then
          match SecurityManager.encrypt_with_iv cipher (BinJSON.security this)
                  (next_random 16 w) (BinaryJSON.payload e) with
          | Ok sealed =>
              (Ok l,
               {| clock := clock w; entropy := entropy w;
                  consumed := (consumed w + 16)%nat;
                  heap := <[l := BinaryJSON.set_payload e sealed]> (heap w);
                  files := files w;
                  calls := calls w ++ validation_calls this data
                             ++ [CallFromDict data schemaId compress;
                                 CallEncrypt (BinaryJSON.payload e)] |})
          | Throw err =>
              (Throw err,
               {| clock := clock w; entropy := entropy w;
                  consumed := (consumed w + 16)%nat;
                  heap := <[l := e]> (heap w); files := files w;
                  calls := calls w ++ validation_calls this data
                             ++ [CallFromDict data schemaId compress;
                                 CallEncrypt (BinaryJSON.payload e)] |})
          end
        else (Ok l, w2)
    end.
Proof.
  intros Haccept. unfold accepts, validation_calls in *.
  unfold BinJSON.serialize, SchemaValidator.validate, BinJSON.call_fromDict,
    BinJSON.call_encrypt, SecurityManager.encrypt.
  unfold mbind, M_bind, mret, M_ret, log, lift, Date_now, new_BinaryJSON, deref, assign_payload, random, throw.
  destruct (BinJSON.validator this) as [v|].
  - rewrite Haccept. cbn [negb with_calls with_heap calls heap clock consumed
                          entropy files].
    destruct (BinaryJSON.fromDict msgpack zlib (clock w) data schemaId compress)
      as [e|err].
    + destruct encrypt.
      * cbn [with_calls with_heap calls heap clock consumed entropy files].
        rewrite lookup_insert_eq.
        cbn [with_calls with_heap calls heap clock consumed entropy files
             next_random].
        unfold next_random at 1.
        cbn [with_calls with_heap calls heap clock consumed entropy files].
        fold (next_random 16 w).
        destruct (SecurityManager.encrypt_with_iv cipher _ _ _) as [sealed|err].
        -- cbn [with_calls with_heap calls heap clock consumed entropy files].
           rewrite lookup_insert_eq, insert_insert_eq.
           unfold with_heap, with_calls. cbn. by rewrite <- !app_assoc.
        -- unfold with_heap, with_calls. cbn. by rewrite <- !app_assoc.
      * unfold with_heap, with_calls. cbn. by rewrite <- !app_assoc.
    + unfold with_heap, with_calls. cbn. by rewrite <- !app_assoc.
  - cbn [negb with_calls with_heap calls heap clock consumed entropy files app].
    destruct (BinaryJSON.fromDict msgpack zlib (clock w) data schemaId compress)
      as [e|err].
    + destruct encrypt.
      * cbn [with_calls with_heap calls heap clock consumed entropy files].
        rewrite lookup_insert_eq.
        unfold next_random at 1.
        cbn [with_calls with_heap calls heap clock consumed entropy files].
        fold (next_random 16 w).
        destruct (SecurityManager.encrypt_with_iv cipher _ _ _) as [sealed|err].
        -- cbn [with_calls with_heap calls heap clock consumed entropy files].
           rewrite lookup_insert_eq, insert_insert_eq.
           unfold with_heap, with_calls. cbn. by rewrite <- !app_assoc.
        -- unfold with_heap, with_calls. cbn. by rewrite <- !app_assoc.
      * unfold with_heap, with_calls. cbn. reflexivity.
    + unfold with_heap, with_calls. cbn. reflexivity.
Qed.

(** Every envelope [serialize] returns, sealed or not, has the header
    [fromDict] built: the magic constant followed by the schema id. *)
Lemma serialize_header (this : BinJSON.t) (data : json) (schemaId : Z)
    (compress encrypt : bool) (l : loc) (w w' : world) :
  BinJSON.serialize msgpack zlib cipher this data schemaId compress encrypt w
    = (Ok l, w') ->
  0 <= schemaId <= 4294967295
  /\ exists e : BinaryJSON.t,
       heap w' !! l = Some e
       /\ BinaryJSON.header e = MAGIC_NUMBER ++ Buffer.be32 schemaId.
Proof.
  destruct (accepts this data) eqn:Haccept.
  - rewrite (serialize_validated this data schemaId compress encrypt w Haccept).
    cbv zeta.
    destruct (BinaryJSON.fromDict msgpack zlib (clock w) data schemaId compress)
      as [e|err] eqn:Hbuilt; [|discriminate].
    apply fromDict_Ok in Hbuilt as [Hid ->].
    destruct encrypt.
    + destruct (SecurityManager.encrypt_with_iv cipher _ _ _)
        as [sealed|err]; [|discriminate].
      intros [= <- <-]. split; [exact Hid|]. eexists.
      split; [apply lookup_insert_eq|reflexivity].
    + intros [= <- <-]. split; [exact Hid|]. eexists.
      split; [apply lookup_insert_eq|reflexivity].
  - unfold accepts in Haccept. unfold BinJSON.serialize.
    destruct (BinJSON.validator this) as [v|]; [|discriminate].
    unfold SchemaValidator.validate, mbind, M_bind, log, throw.
    rewrite Haccept. discriminate.
Qed.

(** X2: [serialize] with a schema id that is not an unsigned 32-bit
    integer raises a [RangeError], thrown by [writeUInt32BE] inside
    [fromDict] after the value was validated: no envelope is
    allocated, [encrypt] is not called and no random bytes are
    drawn. *)
Theorem serialize_schema_id_out_of_range (this : BinJSON.t) (data : json)
    (schemaId : Z) (compress encrypt : bool) (w : world) :
  accepts this data = true ->
  schemaId < 0 \/ 4294967295 < schemaId ->
  exists w' : world,
    BinJSON.serialize msgpack zlib cipher this data schemaId compress encrypt w
      = (Throw RangeError, w')
    /\ heap w' = heap w
    /\ consumed w' = consumed w
    /\ calls w' = calls w ++ validation_calls this data
                    ++ [CallFromDict data schemaId compress].
Proof.
  intros Haccept Hrange. rewrite serialize_validated by exact Haccept.
  cbv zeta.
  destruct (BinaryJSON.fromDict msgpack zlib (clock w) data schemaId compress)
    as [e|err] eqn:Hbuilt.
  { apply fromDict_Ok in Hbuilt as [Hin _]. lia. }
  assert (Herr : err = RangeError).
  { unfold BinaryJSON.fromDict, Buffer.writeUInt32BE in Hbuilt.
    destruct ((0 <=? schemaId) && (schemaId <=? 4294967295));
      [|by injection Hbuilt as <-].
    destruct ((0 <=? 2) && (2 + 4 <=? len (Buffer.concat
                                             [MAGIC_NUMBER; Buffer.alloc 4])));
      [discriminate Hbuilt|by injection Hbuilt as <-]. }
  subst err. eexists. split; [reflexivity|]. repeat split; reflexivity.
Qed.

(** X3: [serialize] without encryption, for a value the validator (if
    any) accepts and a schema id that fits, returns a reference that
    was not in use, pointing to the envelope [fromDict] builds at the
    current time; every envelope that existed is left as it was, no
    random bytes are drawn and no file is touched. *)
Theorem serialize_allocates_fresh_envelope (this : BinJSON.t) (data : json)
    (schemaId : Z) (compress : bool) (w : world) :
  accepts this data = true ->
  0 <= schemaId <= 4294967295 ->
  exists (l : loc) (w' : world),
    BinJSON.serialize msgpack zlib cipher this data schemaId compress false w
      = (Ok l, w')
    /\ heap w !! l = None
    /\ heap w' !! l
       = Some (envelope_of msgpack zlib (clock w) data schemaId compress)
    /\ (forall l' : loc, l' <> l -> heap w' !! l' = heap w !! l')
    /\ consumed w' = consumed w
    /\ files w' = files w
    /\ calls w' = calls w ++ validation_calls this data
                    ++ [CallFromDict data schemaId compress].
Proof.
  intros Haccept Hs. rewrite serialize_validated by exact Haccept. cbv zeta.
  assert (Hbuilt : BinaryJSON.fromDict msgpack zlib (clock w) data schemaId
                     compress
                   = Ok (envelope_of msgpack zlib (clock w) data schemaId
                           compress))
    by (apply fromDict_Ok; split; [exact Hs|reflexivity]).
  rewrite Hbuilt. do 2 eexists. split; [reflexivity|].
  cbn [heap with_heap with_calls consumed files calls].
  split; [apply not_elem_of_dom, is_fresh|].
  split; [apply lookup_insert_eq|].
  split; [intros l' Hne; by apply lookup_insert_ne|].
  repeat split; reflexivity.
Qed.

(** X4: [serialize] without encryption followed by [deserialize]
    without decryption gives the value back, compressed or not, for a
    value the validator accepts and the codec and compressor carry
    faithfully; the envelope is not changed by reading it. *)
Theorem deserialize_serialize (this : BinJSON.t) (data : json)
    (schemaId : Z) (compress : bool) (w : world) :
  accepts this data = true ->
  0 <= schemaId <= 4294967295 ->
  msgpack_decode msgpack (msgpack_encode msgpack data) = Ok data ->
  (compress = true ->
   inflateSync zlib (deflateSync zlib (msgpack_encode msgpack data))
     = Ok (msgpack_encode msgpack data)) ->
  exists (l : loc) (w1 w2 : world),
    BinJSON.serialize msgpack zlib cipher this data schemaId compress false w
      = (Ok l, w1)
    /\ BinJSON.deserialize msgpack zlib cipher this l false w1 = (Ok data, w2)
    /\ heap w2 = heap w1.
Proof.
  intros Haccept Hs Hcodec Hzlib.
  rewrite serialize_validated by exact Haccept. cbv zeta.
  assert (Hbuilt : BinaryJSON.fromDict msgpack zlib (clock w) data schemaId
                     compress
                   = Ok (envelope_of msgpack zlib (clock w) data schemaId
                           compress))
    by (apply fromDict_Ok; split; [exact Hs|reflexivity]).
  rewrite Hbuilt.
  assert (Hread : BinaryJSON.toDict msgpack zlib
                    (envelope_of msgpack zlib (clock w) data schemaId compress)
                  = Ok data).
  { unfold BinaryJSON.toDict, envelope_of. cbn -[String.eqb].
    destruct compress; cbn.
    - rewrite Hzlib by reflexivity. exact Hcodec.
    - exact Hcodec. }
  do 3 eexists. split; [reflexivity|].
  unfold BinJSON.deserialize, BinJSON.call_toDict.
  unfold mbind, M_bind, mret, M_ret, log, lift, deref.
  cbn [heap with_heap with_calls]. rewrite lookup_insert_eq, Hread.
  split; reflexivity.
Qed.

(** X5: [serialize] with encryption, when the cipher succeeds, calls
    [validate] (if a schema is configured), [fromDict] and [encrypt] in
    that order, draws the 16 bytes of the IV, and returns a fresh
    reference to an envelope with the header and metadata [fromDict]
    built and, as payload, the IV followed by the Base64 text of the
    ciphertext of the payload [fromDict] built. *)
Theorem serialize_encrypts_after_encoding (this : BinJSON.t) (data : json)
    (schemaId : Z) (compress : bool) (w : world) (ciphertext : bytes) :
  accepts this data = true ->
  0 <= schemaId <= 4294967295 ->
  let e := envelope_of msgpack zlib (clock w) data schemaId compress in
  aes_encrypt cipher (BinaryJSON.payload e)
    (Utf8_parse (SecurityManager.key (BinJSON.security this)))
    (next_random 16 w) = Ok ciphertext ->
  exists (l : loc) (w' : world),
    BinJSON.serialize msgpack zlib cipher this data schemaId compress true w
      = (Ok l, w')
    /\ heap w !! l = None
    /\ heap w' !! l
       = Some {| BinaryJSON.header := BinaryJSON.header e;
                 BinaryJSON.metadata := BinaryJSON.metadata e;
                 BinaryJSON.payload :=
                   next_random 16 w
                     ++ Buffer_from_utf8 (Base64.stringify ciphertext) |}
    /\ consumed w' = (consumed w + 16)%nat
    /\ calls w' = calls w ++ validation_calls this data
                    ++ [CallFromDict data schemaId compress;
                        CallEncrypt (BinaryJSON.payload e)].
Proof.
  intros Haccept Hs e Hct. rewrite serialize_validated by exact Haccept.
  cbv zeta.
  assert (Hbuilt : BinaryJSON.fromDict msgpack zlib (clock w) data schemaId
                     compress = Ok e)
    by (apply fromDict_Ok; split; [exact Hs|reflexivity]).
  rewrite Hbuilt, encrypt_with_iv_Ok, Hct.
  do 2 eexists. split; [reflexivity|]. cbn [heap consumed calls].
  split; [apply not_elem_of_dom, is_fresh|].
  split; [apply lookup_insert_eq|]. split; reflexivity.
Qed.

End serialize.

(** A run of X2 with the schema id -1. *)
Lemma serialize_schema_id_out_of_range_witness :
  accepts Scenario.binjson Scenario.alice = true
  /\ (-1 < 0 \/ 4294967295 < -1)
  /\ fst (Scenario.serialize Scenario.binjson Scenario.alice (-1) true true
            Scenario.initial) = Throw RangeError.
Proof.
  split; [reflexivity|]. split; [left; lia|].
  destruct (serialize_schema_id_out_of_range Msgpack.codec ZlibStored.zlib
              XorCbc.cipher Scenario.binjson Scenario.alice (-1) true true
              Scenario.initial eq_refl) as (w' & Hrun & _); [left; lia|].
  unfold Scenario.serialize. by rewrite Hrun.
Defined.

(** A run of X3 on [{id: 1, name: "Alice"}]. *)
Lemma serialize_allocates_fresh_envelope_witness :
  accepts Scenario.binjson Scenario.alice = true
  /\ 0 <= 1 <= 4294967295
  /\ exists (l : loc) (w' : world),
       Scenario.serialize Scenario.binjson Scenario.alice 1 false false
         Scenario.initial = (Ok l, w')
       /\ heap w' !! l = Some Scenario.alice_envelope.
Proof.
  split; [reflexivity|]. split; [lia|].
  destruct (serialize_allocates_fresh_envelope Msgpack.codec ZlibStored.zlib
              XorCbc.cipher Scenario.binjson Scenario.alice 1 false
              Scenario.initial eq_refl)
    as (l & w' & Hrun & _ & Hl & _); [lia|].
  exists l, w'. split; [exact Hrun|exact Hl].
Defined.

(** A run of X4 on [{id: 1, name: "Alice"}], compressed. *)
Lemma deserialize_serialize_witness :
  accepts Scenario.binjson Scenario.alice = true
  /\ 0 <= 1 <= 4294967295
  /\ exists (l : loc) (w1 w2 : world),
       Scenario.serialize Scenario.binjson Scenario.alice 1 true false
         Scenario.initial = (Ok l, w1)
       /\ Scenario.deserialize Scenario.binjson l false w1
          = (Ok Scenario.alice, w2).
Proof.
  split; [reflexivity|]. split; [lia|].
  destruct (deserialize_serialize Msgpack.codec ZlibStored.zlib XorCbc.cipher
              Scenario.binjson Scenario.alice 1 true Scenario.initial eq_refl)
    as (l & w1 & w2 & Hser & Hdes & _); [lia|reflexivity|reflexivity|].
  exists l, w1, w2. split; [exact Hser|exact Hdes].
Defined.

(** A run of X5 on [{id: 1, name: "Alice"}] with the reference cipher. *)
Lemma serialize_encrypts_after_encoding_witness :
  accepts Scenario.binjson Scenario.alice = true
  /\ 0 <= 1 <= 4294967295
  /\ exists (l : loc) (w' : world),
       Scenario.serialize Scenario.binjson Scenario.alice 1 false true
         Scenario.initial = (Ok l, w')
       /\ calls w'
          = [ CallValidate Scenario.alice;
              CallFromDict Scenario.alice 1 false;
              CallEncrypt (Msgpack.encode Scenario.alice) ]
       /\ BinaryJSON.header <$> heap w' !! l
          = Some [x42; x4a; x00; x00; x00; x01].
Proof.
  split; [reflexivity|]. split; [lia|].
  destruct (XorCbc.encrypt (Msgpack.encode Scenario.alice)
              (Utf8_parse (SecurityManager.key (BinJSON.security Scenario.binjson)))
              (next_random 16 Scenario.initial)) as [ciphertext|err] eqn:Hct;
    [|discriminate Hct].
  destruct (serialize_encrypts_after_encoding Msgpack.codec ZlibStored.zlib
              XorCbc.cipher Scenario.binjson Scenario.alice 1 false
              Scenario.initial ciphertext eq_refl)
    as (l & w' & Hrun & _ & Hl & _ & Hcalls); [lia|exact Hct|].
  exists l, w'. split; [exact Hrun|]. split; [exact Hcalls|].
  by rewrite Hl.
Defined.

(** ** The security manager: errors and short inputs *)

Section security_errors.
Context (msgpack : Codec) (zlib : Compressor) (cipher : Cipher).

(** The error [decrypt] throws carries the message of the error it
    caught: the one the cipher threw, or "Malformed UTF-8 data" when
    the decrypted bytes are not text. *)
Lemma decrypt_error (this : SecurityManager.t) (data : bytes) (err : error) :
  SecurityManager.decrypt cipher this data = Throw err ->
  exists cause : error,
    err = SecurityError ("Decryption failed: " +:+ message cause)
    /\ (SecurityManager.AES_decrypt cipher
          (Buffer_toString_utf8 (Buffer.slice_from data 32))
          (Utf8_parse (SecurityManager.key this)) (Buffer.slice data 0 32)
        = Throw cause
        \/ cause = LibraryError "Malformed UTF-8 data").
Proof.
  unfold SecurityManager.decrypt, SecurityManager.try_catch.
  rewrite hex_parse_stringify.
  destruct (SecurityManager.AES_decrypt cipher _ _ _) as [decrypted|cause].
  - cbn. unfold Utf8.stringify.
    destruct (Utf8.well_formed (length decrypted) decrypted); [discriminate|].
    cbn. intros [= <-].
    exists (LibraryError "Malformed UTF-8 data"). split; [reflexivity|by right].
  - cbn. intros [= <-]. exists cause. split; [reflexivity|by left].
Qed.

(** X6: whatever goes wrong inside them, [encrypt] and [decrypt] throw
    a [SecurityError] and nothing else. Its message is "Encryption
    failed: " or "Decryption failed: " followed by the message of the
    error caught: the one the cipher threw or, in [decrypt],
    "Malformed UTF-8 data" when the decrypted bytes are not text.
    [encrypt] has drawn its 16 random bytes by then. *)
Theorem security_manager_throws_SecurityError (this : SecurityManager.t)
    (data : bytes) (w : world) :
  (forall (err : error) (w' : world),
      SecurityManager.encrypt cipher this data w = (Throw err, w') ->
      exists cause : error,
        aes_encrypt cipher data (Utf8_parse (SecurityManager.key this))
          (next_random 16 w) = Throw cause
        /\ err = SecurityError ("Encryption failed: " +:+ message cause)
        /\ consumed w' = (consumed w + 16)%nat)
  /\ (forall err : error,
         SecurityManager.decrypt cipher this data = Throw err ->
         exists cause : error,
           err = SecurityError ("Decryption failed: " +:+ message cause)
           /\ (SecurityManager.AES_decrypt cipher
                 (Buffer_toString_utf8 (Buffer.slice_from data 32))
                 (Utf8_parse (SecurityManager.key this))
                 (Buffer.slice data 0 32)
               = Throw cause
               \/ cause = LibraryError "Malformed UTF-8 data")).
Proof.
  split.
  - intros err w'. unfold SecurityManager.encrypt, mbind, M_bind, random, lift.
    rewrite encrypt_with_iv_Ok.
    destruct (aes_encrypt cipher _ _ _) as [ciphertext|cause];
      intros [= <- <-]. exists cause. split; [reflexivity|]. split; reflexivity.
  - intros err. apply decrypt_error.
Qed.

(** X7: when [decrypt] fails, [deserialize] with [decrypt = true]
    throws the error of [decrypt], a [SecurityError] whose message
    starts with "Decryption failed: ", and stops there: the payload of
    the envelope is not touched and [toDict] is not called. *)
Theorem deserialize_stops_when_decrypt_fails (this : BinJSON.t) (l : loc)
    (e : BinaryJSON.t) (err : error) (w : world) :
  heap w !! l = Some e ->
  SecurityManager.decrypt cipher (BinJSON.security this)
    (BinaryJSON.payload e) = Throw err ->
  exists w' : world,
    BinJSON.deserialize msgpack zlib cipher this l true w = (Throw err, w')
    /\ (exists text : string,
           err = SecurityError ("Decryption failed: " +:+ text))
    /\ heap w' = heap w
    /\ calls w' = calls w ++ [CallDecrypt (BinaryJSON.payload e)].
Proof.
  intros Hl Hfail. rewrite (deserialize_decrypt _ _ _ this l e w Hl).
  destruct (decrypt_error _ _ _ Hfail) as (cause & Herr & _).
  rewrite Hfail. eexists. split; [reflexivity|].
  split; [by exists (message cause)|]. split; reflexivity.
Qed.

(** X8: [deserialize] without decryption never calls [decrypt] and
    never writes to the heap: it returns what [toDict] returns for the
    envelope as it is. *)
Theorem deserialize_without_decrypt_reads_only (this : BinJSON.t) (l : loc)
    (e : BinaryJSON.t) (w : world) :
  heap w !! l = Some e ->
  exists w' : world,
    BinJSON.deserialize msgpack zlib cipher this l false w
      = (BinaryJSON.toDict msgpack zlib e, w')
    /\ heap w' = heap w
    /\ consumed w' = consumed w
    /\ calls w' = calls w ++ [CallToDict l].
Proof.
  intros Hl. unfold BinJSON.deserialize, BinJSON.call_toDict.
  unfold mbind, M_bind, mret, M_ret, log, lift, deref.
  cbn [heap with_calls]. rewrite Hl.
  destruct (BinaryJSON.toDict msgpack zlib e) as [v|err];
    eexists; (split; [reflexivity|]); repeat split; reflexivity.
Qed.

(** X9: [decrypt] on an input of at most 32 bytes takes the whole input
    for the IV and hands the cipher an empty ciphertext. *)
Theorem decrypt_short_input (this : SecurityManager.t) (data : bytes) :
  len data <= 32 ->
  SecurityManager.decrypt cipher this data
  = SecurityManager.try_catch "Decryption failed"
      (decrypted ← aes_decrypt cipher []
                     (Utf8_parse (SecurityManager.key this)) data;
       s ← Utf8.stringify decrypted;
       Ok (Buffer_from_utf8 s)).
Proof.
  intros Hshort. unfold SecurityManager.decrypt, SecurityManager.AES_decrypt.
  rewrite hex_parse_stringify, slice_from_beyond by lia.
  rewrite slice_prefix by lia.
  rewrite take_ge by (unfold len in *; lia). reflexivity.
Qed.

End security_errors.

(** A run of X7: an envelope whose payload is laid out the way
    [decrypt] reads it and holds the ciphertext of the byte ff, which
    is not text. *)
Lemma deserialize_stops_when_decrypt_fails_witness :
  let e := BinaryJSON.set_payload Scenario.alice_envelope
             Scenario.sealed_not_text in
  let w := with_heap {[ 1%positive := e ]} Scenario.initial in
  let err := SecurityError "Decryption failed: Malformed UTF-8 data" in
  heap w !! 1%positive = Some e
  /\ SecurityManager.decrypt XorCbc.cipher (BinJSON.security Scenario.binjson)
       (BinaryJSON.payload e) = Throw err
  /\ exists w' : world,
       Scenario.deserialize Scenario.binjson 1%positive true w
         = (Throw err, w')
       /\ heap w' = heap w.
Proof.
  intros e w err.
  assert (Hl : heap w !! 1%positive = Some e) by apply lookup_singleton_eq.
  assert (Hfail : SecurityManager.decrypt XorCbc.cipher
                    (BinJSON.security Scenario.binjson) (BinaryJSON.payload e)
                  = Throw err)
    by (vm_compute; reflexivity).
  split; [exact Hl|]. split; [exact Hfail|].
  destruct (deserialize_stops_when_decrypt_fails Msgpack.codec ZlibStored.zlib
              XorCbc.cipher Scenario.binjson 1%positive e err w Hl Hfail)
    as (w' & Hrun & _ & Hheap & _).
  exists w'. split; [exact Hrun|exact Hheap].
Defined.

Lemma deserialize_without_decrypt_reads_only_witness :
  let w := with_heap {[ 1%positive := Scenario.alice_envelope ]}
             Scenario.initial in
  heap w !! 1%positive = Some Scenario.alice_envelope
  /\ exists w' : world,
       Scenario.deserialize Scenario.binjson 1%positive false w
         = (Ok Scenario.alice, w')
       /\ heap w' = heap w.
Proof.
  intros w.
  assert (Hl : heap w !! 1%positive = Some Scenario.alice_envelope)
    by apply lookup_singleton_eq.
  split; [exact Hl|].
  destruct (deserialize_without_decrypt_reads_only Msgpack.codec
              ZlibStored.zlib XorCbc.cipher Scenario.binjson 1%positive
              Scenario.alice_envelope w Hl) as (w' & Hrun & Hheap & _).
  exists w'. split; [exact Hrun|exact Hheap].
Defined.

(** A run of X9: the two bytes "hi". The cipher is handed no
    ciphertext and [decrypt] returns the empty buffer. *)
Lemma decrypt_short_input_witness :
  len [x68; x69] <= 32
  /\ SecurityManager.decrypt XorCbc.cipher (BinJSON.security Scenario.binjson)
       [x68; x69]
     = Ok [].
Proof.
  split; [unfold len; simpl; lia|].
  rewrite (decrypt_short_input XorCbc.cipher _ [x68; x69]);
    [reflexivity|unfold len; simpl; lia].
Defined.

(** ** The chunker: chunk count and chunk sizes that are not positive *)

Section chunker_edges.
Context (data : bytes) (n : Z).

(** With a chunk size of zero or less the index never passes the end
    of a buffer that is not empty. *)
Lemma process_loop_never_ends (fuel : nat) :
  forall (i : Z) (acc : list bytes),
    n <= 0 -> i < len data ->
    DataHandler.process_loop fuel data n i acc = None.
Proof.
  induction fuel as [|fuel IH]; intros i acc Hn Hi; simpl;
    destruct (Z.ltb_spec i (len data)); try lia; [reflexivity|].
  apply IH; lia.
Qed.

End chunker_edges.

(** X10: in stream mode with a chunk size of zero or less, the loop of
    [process] on a buffer that is not empty never ends: no number of
    iterations gives a result. On the empty buffer it returns no chunk
    at once, whatever the chunk size. *)
Theorem process_nonpositive_chunk_size (h : DataHandler.t) (data : bytes) :
  DataHandler.mode h <> "batch" ->
  (DataHandler.chunkSize h <= 0 -> data <> [] ->
   DataHandler.process h data = None
   /\ forall fuel : nat,
        DataHandler.process_loop fuel data (DataHandler.chunkSize h) 0 [] = None)
  /\ DataHandler.process h [] = Some (Chunks []).
Proof.
  intros Hmode. unfold DataHandler.process.
  destruct (String.eqb_spec (DataHandler.mode h) "batch") as [|_]; [done|].
  split; [|reflexivity]. intros Hn Hdata.
  assert (Hlen : 0 < len data) by (destruct data; [done|unfold len; simpl; lia]).
  split; [|intros fuel; by apply process_loop_never_ends].
  by rewrite process_loop_never_ends.
Qed.

Lemma process_nonpositive_chunk_size_witness :
  let h := {| DataHandler.mode := "stream"; DataHandler.chunkSize := 0 |} in
  DataHandler.mode h <> "batch"
  /\ DataHandler.chunkSize h <= 0
  /\ [x01] <> @nil byte
  /\ DataHandler.process h [x01] = None.
Proof.
  intros h. split; [discriminate|]. split; [simpl; lia|].
  split; [discriminate|].
  destruct (process_nonpositive_chunk_size h [x01]) as [Hloop _];
    [discriminate|].
  destruct Hloop as [Hnone _]; [simpl; lia|discriminate|exact Hnone].
Defined.

(** X11: in stream mode with a chunk size [n >= 1], [process] returns
    ceil(len / n) chunks, none of them empty. *)
Theorem process_chunk_count (h : DataHandler.t) (b : bytes) :
  1 <= DataHandler.chunkSize h ->
  DataHandler.mode h <> "batch" ->
  exists cs : list bytes,
    DataHandler.process h b = Some (Chunks cs)
    /\ len cs = (len b + DataHandler.chunkSize h - 1) / DataHandler.chunkSize h
    /\ Forall (fun c => c <> []) cs.
Proof.
  intros Hn Hmode.
  destruct (process_stream_chunks h b Hn Hmode)
    as (cs & Hrun & Hcat & Hfull & Hlast & _).
  exists cs. split; [exact Hrun|].
  set (n := DataHandler.chunkSize h) in *.
  destruct (last cs) as [c|] eqn:Hc.
  - destruct (Hlast c eq_refl) as [Hsize _].
    pose proof (full_but_last_total n cs c Hfull Hc) as Htotal.
    unfold Buffer.concat in Hcat. rewrite Hcat in Htotal. split.
    + apply (Z.div_unique _ _ _ (len c - 1)); lia.
    + apply Forall_forall. intros d Hd.
      apply list_elem_of_lookup in Hd as [j Hj].
      destruct (decide (S j < length cs)%nat) as [Hlt|Hge].
      * specialize (Hfull j d Hj Hlt). intros ->. unfold len in Hfull.
        simpl in Hfull. lia.
      * assert (Hdc : last cs = Some d).
        { rewrite last_lookup. rewrite <- Hj. f_equal.
          apply lookup_lt_Some in Hj. lia. }
        rewrite Hc in Hdc. injection Hdc as <-. intros ->.
        unfold len in Hsize. simpl in Hsize. lia.
  - apply last_None in Hc. subst cs. unfold Buffer.concat in Hcat.
    simpl in Hcat. subst b. split; [|constructor].
    unfold len. simpl. symmetry. apply Z.div_small. lia.
Qed.

(** A run of X11: 2000 bytes in chunks of 512 make 4 chunks. *)
Lemma process_chunk_count_witness :
  let h := {| DataHandler.mode := "stream"; DataHandler.chunkSize := 512 |} in
  1 <= DataHandler.chunkSize h
  /\ DataHandler.mode h <> "batch"
  /\ exists cs : list bytes,
       DataHandler.process h (replicate 2000 x00) = Some (Chunks cs)
       /\ len cs = 4.
Proof.
  intros h. split; [simpl; lia|]. split; [discriminate|].
  destruct (process_chunk_count h (replicate 2000 x00))
    as (cs & Hrun & Hcount & _); [simpl; lia|discriminate|].
  exists cs. split; [exact Hrun|]. rewrite Hcount. reflexivity.
Defined.

(** ** [send] *)

Section send.
Context (msgpack : Codec).

(** X12: [send] on a socket that is not open throws [NetworkError]
    before it looks at the envelope: nothing is handed to the socket
    and the world is unchanged, whatever the reference, the mode and
    the chunk size. *)
Theorem send_not_connected (this : BinJSONWebSocket.t) (l : loc) (w : world) :
  BinJSONWebSocket.readyState this <> BinJSONWebSocket.OPEN ->
  BinJSONWebSocket.send msgpack this l w
  = Some (this, Throw (NetworkError "WebSocket not connected"), w).
Proof.
  intros Hstate. unfold BinJSONWebSocket.send.
  by destruct (Z.eqb_spec (BinJSONWebSocket.readyState this)
                 BinJSONWebSocket.OPEN).
Qed.

(** X13: in batch mode [send] hands the socket one frame per byte of
    header, encoded metadata and payload, each frame a number and none
    a buffer, whatever the chunk size. *)
Theorem send_batch_sends_numbers (this : BinJSONWebSocket.t) (l : loc)
    (e : BinaryJSON.t) (w : world) :
  BinJSONWebSocket.readyState this = BinJSONWebSocket.OPEN ->
  heap w !! l = Some e ->
  DataHandler.mode (BinJSON.handler (BinJSONWebSocket.binjson this))
    = "batch" ->
  exists this' : BinJSONWebSocket.t,
    BinJSONWebSocket.send msgpack this l w = Some (this', Ok tt, w)
    /\ BinJSONWebSocket.sent this'
       = BinJSONWebSocket.sent this ++ (ByteElement <$> wire_of msgpack e)
    /\ length (BinJSONWebSocket.sent this')
       = (length (BinJSONWebSocket.sent this)
          + length (BinaryJSON.header e)
          + length (msgpack_encode msgpack (BinaryJSON.metadata e))
          + length (BinaryJSON.payload e))%nat
    /\ buffer_frames (BinJSONWebSocket.sent this')
       = buffer_frames (BinJSONWebSocket.sent this).
Proof.
  intros Hopen Hl Hmode. unfold BinJSONWebSocket.send, deref.
  rewrite Hopen, Hl. cbn [negb Z.eqb BinJSONWebSocket.OPEN Pos.eqb].
  unfold DataHandler.process. rewrite Hmode. cbn [String.eqb mbind option_bind].
  eexists. split; [reflexivity|].
  cbn [BinJSONWebSocket.ws_send BinJSONWebSocket.sent elements].
  split; [reflexivity|]. split.
  - rewrite length_app, length_fmap. unfold wire_of, Buffer.concat.
    cbn [List.concat]. rewrite !length_app. simpl. lia.
  - unfold buffer_frames. rewrite map_app, concat_app.
    assert (Hnone : forall b : bytes,
              List.concat (List.map (fun f => match f with
                                              | BufferElement c => [c]
                                              | ByteElement _ => []
                                              end) (ByteElement <$> b)) = []).
    { intros b. induction b as [|x b IH]; [reflexivity|exact IH]. }
    by rewrite Hnone, app_nil_r.
Qed.

End send.

Lemma send_not_connected_witness :
  let this := createWebSocket Scenario.binjson in
  BinJSONWebSocket.readyState this <> BinJSONWebSocket.OPEN
  /\ BinJSONWebSocket.send Msgpack.codec this 1%positive Scenario.initial
     = Some (this, Throw (NetworkError "WebSocket not connected"),
             Scenario.initial).
Proof.
  intros this. split; [discriminate|].
  apply (send_not_connected Msgpack.codec this 1%positive Scenario.initial).
  discriminate.
Defined.

Lemma send_batch_sends_numbers_witness :
  let this := BinJSONWebSocket.create Scenario.binjson BinJSONWebSocket.OPEN in
  let w := with_heap {[ 1%positive := Scenario.alice_envelope ]}
             Scenario.initial in
  BinJSONWebSocket.readyState this = BinJSONWebSocket.OPEN
  /\ heap w !! 1%positive = Some Scenario.alice_envelope
  /\ DataHandler.mode (BinJSON.handler (BinJSONWebSocket.binjson this))
     = "batch"
  /\ exists this' : BinJSONWebSocket.t,
       BinJSONWebSocket.send Msgpack.codec this 1%positive w
         = Some (this', Ok tt, w)
       /\ length (BinJSONWebSocket.sent this') = 70%nat.
Proof.
  intros this w.
  assert (Hl : heap w !! 1%positive = Some Scenario.alice_envelope)
    by apply lookup_singleton_eq.
  split; [reflexivity|]. split; [exact Hl|]. split; [reflexivity|].
  destruct (send_batch_sends_numbers Msgpack.codec this 1%positive
              Scenario.alice_envelope w eq_refl Hl eq_refl)
    as (this' & Hrun & _ & Hlen & _).
  exists this'. split; [exact Hrun|]. rewrite Hlen. reflexivity.
Defined.

(** ** The receiving side over several messages *)

Section receiving.
Context (msgpack : Codec) (zlib : Compressor) (cipher : Cipher).

(** The handler keeps the chunk it was given, thrown or not. *)
Lemma onmessage_pushes (this : BinJSONWebSocket.t) (chunk : bytes) (w : world) :
  BinJSONWebSocket.chunkBuffer (BinJSONWebSocket.onmessage msgpack this chunk w).1.1
  = BinJSONWebSocket.chunkBuffer this ++ [chunk].
Proof.
  unfold BinJSONWebSocket.onmessage.
  by destruct (BinJSONWebSocket.onmessage_body _ _ _ _) as [[cur|e] w1].
Qed.

(** X14: the chunk buffer of a wrapper holds every message it ever
    received, in order, also those on which the handler threw; nothing
    in the handler empties it. *)
Theorem deliver_keeps_every_chunk (messages : list bytes) :
  forall (this : BinJSONWebSocket.t) (w : world),
    BinJSONWebSocket.chunkBuffer
      (BinJSONWebSocket.deliver msgpack this messages w).1
    = BinJSONWebSocket.chunkBuffer this ++ messages.
Proof.
  induction messages as [|m rest IH]; intros this w; simpl.
  - by rewrite app_nil_r.
  - pose proof (onmessage_pushes this m w) as Hpush.
    destruct (BinJSONWebSocket.onmessage msgpack this m w) as [[this1 r] w1].
    rewrite IH. simpl in Hpush. by rewrite Hpush, <- app_assoc.
Qed.

(** X15: once a wrapper holds an envelope, every further message is
    appended to its payload, in order: after any messages the payload
    is the old payload followed by all of them, header and metadata are
    the same, and the wrapper holds the same object. A second envelope
    sent over the same socket ends up in the payload of the first. *)
Theorem deliver_appends_to_payload (messages : list bytes) :
  forall (this : BinJSONWebSocket.t) (l : loc) (e : BinaryJSON.t) (w : world),
    BinJSONWebSocket.chunkBuffer this <> [] ->
    BinJSONWebSocket.currentBinaryJSON this = Some l ->
    heap w !! l = Some e ->
    exists (this' : BinJSONWebSocket.t) (w' : world),
      BinJSONWebSocket.deliver msgpack this messages w = (this', w')
      /\ BinJSONWebSocket.currentBinaryJSON this' = Some l
      /\ heap w'
         = <[l := {| BinaryJSON.header := BinaryJSON.header e;
                     BinaryJSON.metadata := BinaryJSON.metadata e;
                     BinaryJSON.payload :=
                       BinaryJSON.payload e ++ Buffer.concat messages |}]>
             (heap w).
Proof.
  induction messages as [|m rest IH]; intros this l e w Hbuf Hcur Hl.
  - exists this, w. simpl. split; [reflexivity|]. split; [exact Hcur|].
    unfold Buffer.concat. simpl. rewrite app_nil_r.
    symmetry. apply insert_id. rewrite Hl. by destruct e.
  - cbn [BinJSONWebSocket.deliver].
    rewrite (onmessage_later_chunk msgpack this m w Hbuf), Hcur, Hl.
    cbv zeta.
    set (e1 := BinaryJSON.set_payload e (BinaryJSON.payload e ++ m)).
    set (this1 := BinJSONWebSocket.set_current
                    (BinJSONWebSocket.push_chunk this m) (Some l)).
    set (w1 := with_heap (<[l := e1]> (heap w)) w).
    destruct (IH this1 l e1 w1) as (this' & w' & Hrun & Hcur' & Hheap).
    + unfold this1. cbn. by destruct (BinJSONWebSocket.chunkBuffer this).
    + reflexivity.
    + apply lookup_insert_eq.
    + exists this', w'. split; [exact Hrun|]. split; [exact Hcur'|].
      rewrite Hheap. unfold w1, e1. cbn [heap with_heap].
      rewrite insert_insert_eq. unfold Buffer.concat. cbn.
      by rewrite <- app_assoc.
Qed.

(** A wrapper whose first message failed holds no envelope, and no
    later message gives it one. *)
Lemma deliver_after_failure (messages : list bytes) :
  forall (this : BinJSONWebSocket.t) (w : world),
    BinJSONWebSocket.chunkBuffer this <> [] ->
    BinJSONWebSocket.currentBinaryJSON this = None ->
    exists this' : BinJSONWebSocket.t,
      BinJSONWebSocket.deliver msgpack this messages w = (this', w)
      /\ BinJSONWebSocket.currentBinaryJSON this' = None.
Proof.
  induction messages as [|m rest IH]; intros this w Hbuf Hcur.
  - exists this. split; [reflexivity|exact Hcur].
  - cbn [BinJSONWebSocket.deliver].
    rewrite (onmessage_later_chunk msgpack this m w Hbuf), Hcur. cbv zeta.
    apply IH; [|exact Hcur].
    cbn. by destruct (BinJSONWebSocket.chunkBuffer this).
Qed.

(** X16: when the handler throws on the first message of a wrapper, the
    wrapper never recovers: whatever messages follow, it holds no
    envelope, the heap is as it was, and [getReceivedData] throws the
    [BinJSONError] "No data received yet". *)
Theorem first_message_failure_is_final (this : BinJSONWebSocket.t)
    (first : bytes) (later : list bytes) (err : error) (w : world) :
  BinJSONWebSocket.chunkBuffer this = [] ->
  BinJSONWebSocket.currentBinaryJSON this = None ->
  (BinJSONWebSocket.onmessage msgpack this first w).1.2 = Throw err ->
  exists this' : BinJSONWebSocket.t,
    BinJSONWebSocket.deliver msgpack this (first :: later) w = (this', w)
    /\ received this' w = None
    /\ BinJSONWebSocket.getReceivedData msgpack zlib cipher this' w
       = (Throw (BinJSONError "No data received yet"), w).
Proof.
  intros Hbuf Hcur Hthrow. cbn [BinJSONWebSocket.deliver].
  rewrite (onmessage_first_chunk msgpack this first w Hbuf) in *.
  cbv zeta in *.
  assert (Hstate :
    match Buffer.readUInt32BE first 6 with
    | Ok n =>
        match msgpack_decode msgpack (Buffer.slice first 6 (6 + n)) with
        | Ok metadata =>
            (BinJSONWebSocket.set_current
               (BinJSONWebSocket.push_chunk this first)
               (Some (fresh (dom (heap w)))), Ok tt,
             with_heap
               (<[fresh (dom (heap w)) :=
                    {| BinaryJSON.header := Buffer.slice first 0 6;
                       BinaryJSON.metadata := metadata;
                       BinaryJSON.payload := Buffer.slice_from first (6 + n) |}]>
                  (heap w)) w)
        | Throw e => (BinJSONWebSocket.push_chunk this first, Throw e, w)
        end
    | Throw e => (BinJSONWebSocket.push_chunk this first, Throw e, w)
    end = (BinJSONWebSocket.push_chunk this first, Throw err, w)).
  { destruct (Buffer.readUInt32BE first 6) as [n|e0];
      [destruct (msgpack_decode msgpack _) as [metadata|e0]|];
      simpl in Hthrow; try discriminate Hthrow;
      by injection Hthrow as ->. }
  rewrite Hstate.
  destruct (deliver_after_failure later
              (BinJSONWebSocket.push_chunk this first) w)
    as (this' & Hrun & Hnone).
  { cbn. by destruct (BinJSONWebSocket.chunkBuffer this). }
  { exact Hcur. }
  exists this'. split; [exact Hrun|].
  unfold received, BinJSONWebSocket.getReceivedData. rewrite Hnone.
  split; reflexivity.
Qed.

(** X17: [getReceivedData] on a wrapper that holds an envelope returns
    what [toDict] returns for it and never decrypts: [decrypt] is not
    called and the envelope is not changed, so a sealed payload is
    decoded as it is. *)
Theorem getReceivedData_never_decrypts (this : BinJSONWebSocket.t) (l : loc)
    (e : BinaryJSON.t) (w : world) :
  BinJSONWebSocket.currentBinaryJSON this = Some l ->
  heap w !! l = Some e ->
  exists w' : world,
    BinJSONWebSocket.getReceivedData msgpack zlib cipher this w
      = (BinaryJSON.toDict msgpack zlib e, w')
    /\ heap w' = heap w
    /\ calls w' = calls w ++ [CallToDict l].
Proof.
  intros Hcur Hl. unfold BinJSONWebSocket.getReceivedData. rewrite Hcur.
  unfold BinJSON.deserialize, BinJSON.call_toDict.
  unfold mbind, M_bind, mret, M_ret, log, lift, deref.
  cbn [heap with_calls]. rewrite Hl.
  destruct (BinaryJSON.toDict msgpack zlib e) as [v|err];
    eexists; (split; [reflexivity|]); split; reflexivity.
Qed.

End receiving.

(** A run of X15: a wrapper that received the whole message of
    [{id: 1, name: "Alice"}] and then the two messages 01 02 and 03. *)
Lemma deliver_appends_to_payload_witness :
  let fresh_ws := BinJSONWebSocket.create Scenario.binjson BinJSONWebSocket.OPEN in
  let '(this, _, w) :=
    BinJSONWebSocket.onmessage Msgpack.codec fresh_ws
      (wire_of Msgpack.codec Scenario.alice_envelope) Scenario.initial in
  BinJSONWebSocket.chunkBuffer this <> []
  /\ BinJSONWebSocket.currentBinaryJSON this = Some 1%positive
  /\ BinaryJSON.payload <$> heap w !! 1%positive = Some []
  /\ exists (this' : BinJSONWebSocket.t) (w' : world),
       BinJSONWebSocket.deliver Msgpack.codec this [[x01; x02]; [x03]] w
         = (this', w')
       /\ BinaryJSON.payload <$> heap w' !! 1%positive = Some [x01; x02; x03].
Proof.
  intros fresh_ws.
  destruct (BinJSONWebSocket.onmessage Msgpack.codec fresh_ws
              (wire_of Msgpack.codec Scenario.alice_envelope) Scenario.initial)
    as [[this r] w] eqn:Hfirst.
  vm_compute in Hfirst. injection Hfirst as <- <- <-.
  split; [discriminate|]. split; [reflexivity|]. split; [reflexivity|].
  match goal with
  | |- context [BinJSONWebSocket.deliver _ ?t _ ?w0] =>
      destruct (deliver_appends_to_payload Msgpack.codec [[x01; x02]; [x03]]
                  t 1%positive
                  (BinaryJSON.set_payload Scenario.alice_envelope []) w0)
        as (this' & w' & Hrun & _ & Hheap);
        [discriminate|reflexivity|reflexivity|]
  end.
  exists this', w'. split; [exact Hrun|]. rewrite Hheap.
  by rewrite lookup_insert_eq.
Defined.

(** A run of X16: a first message of four bytes, then the rest. *)
Lemma first_message_failure_is_final_witness :
  let this := BinJSONWebSocket.create Scenario.binjson BinJSONWebSocket.OPEN in
  let wire := wire_of Msgpack.codec Scenario.alice_envelope in
  (BinJSONWebSocket.onmessage Msgpack.codec this (take 4 wire)
     Scenario.initial).1.2 = Throw RangeError
  /\ exists this' : BinJSONWebSocket.t,
       BinJSONWebSocket.deliver Msgpack.codec this
         (take 4 wire :: [drop 4 wire]) Scenario.initial
         = (this', Scenario.initial)
       /\ BinJSONWebSocket.getReceivedData Msgpack.codec ZlibStored.zlib
            XorCbc.cipher this' Scenario.initial
          = (Throw (BinJSONError "No data received yet"), Scenario.initial).
Proof.
  intros this wire.
  assert (Hthrow : (BinJSONWebSocket.onmessage Msgpack.codec this
                      (take 4 wire) Scenario.initial).1.2 = Throw RangeError)
    by reflexivity.
  split; [exact Hthrow|].
  destruct (first_message_failure_is_final Msgpack.codec ZlibStored.zlib
              XorCbc.cipher this (take 4 wire) [drop 4 wire] RangeError
              Scenario.initial eq_refl eq_refl Hthrow)
    as (this' & Hrun & _ & Hget).
  exists this'. split; [exact Hrun|exact Hget].
Defined.

(** A run of X17: the envelope of the C10 run, sealed, read without
    decryption: [toDict] meets the sealed bytes. *)
Lemma getReceivedData_never_decrypts_witness :
  let this := BinJSONWebSocket.set_current
                (BinJSONWebSocket.create Scenario.binjson BinJSONWebSocket.OPEN)
                (Some 1%positive) in
  let w := with_heap {[ 1%positive := Scenario.sealed_envelope ]}
             Scenario.initial in
  BinJSONWebSocket.currentBinaryJSON this = Some 1%positive
  /\ heap w !! 1%positive = Some Scenario.sealed_envelope
  /\ exists w' : world,
       BinJSONWebSocket.getReceivedData Msgpack.codec ZlibStored.zlib
         XorCbc.cipher this w = (Ok (JNumber 17), w')
       /\ heap w' = heap w.
Proof.
  intros this w.
  assert (Hl : heap w !! 1%positive = Some Scenario.sealed_envelope)
    by apply lookup_singleton_eq.
  split; [reflexivity|]. split; [exact Hl|].
  destruct (getReceivedData_never_decrypts Msgpack.codec ZlibStored.zlib
              XorCbc.cipher this 1%positive Scenario.sealed_envelope w
              eq_refl Hl) as (w' & Hrun & Hheap & _).
  exists w'. split; [exact Hrun|exact Hheap].
Defined.

(** ** Files *)

Lemma readUInt32BE_nonneg (b : bytes) (offset n : Z) :
  Buffer.readUInt32BE b offset = Ok n -> 0 <= n.
Proof.
  unfold Buffer.readUInt32BE.
  destruct ((0 <=? offset) && (offset + 4 <=? len b)); [|discriminate].
  destruct (drop (Z.to_nat offset) b) as [|b0 [|b1 [|b2 [|b3 rest]]]];
    try discriminate.
  intros [= <-].
  pose proof (Z_of_byte_range b0). pose proof (Z_of_byte_range b1).
  pose proof (Z_of_byte_range b2). pose proof (Z_of_byte_range b3).
  repeat (apply Z.lor_nonneg; split); try apply Z.shiftl_nonneg; lia.
Qed.

Section loading.
Context (msgpack : Codec).

(** [loadFromFile], step by step. *)
Lemma loadFromFile_run (filepath : string) (w : world) :
  loadFromFile msgpack filepath w
  = match files w !! filepath with
    | None => (Throw (LibraryError "ENOENT"), w)
    | Some data =>
        match Buffer.readUInt32BE data 6 with
        | Throw e => (Throw e, w)
        | Ok n =>
            match msgpack_decode msgpack (Buffer.slice data 6 (6 + n)) with
            | Throw e => (Throw e, w)
            | Ok metadata =>
                let l := fresh (dom (heap w)) in
                (Ok l,
                 with_heap
                   (<[l := {| BinaryJSON.header := Buffer.slice data 0 6;
                              BinaryJSON.metadata := metadata;
                              BinaryJSON.payload :=
                                Buffer.slice_from data (6 + n) |}]> (heap w)) w)
            end
        end
    end.
Proof.
  unfold loadFromFile, readFileSync, mbind, M_bind, lift, new_BinaryJSON.
  destruct (files w !! filepath) as [data|]; [|reflexivity].
  destruct (Buffer.readUInt32BE data 6) as [n|e]; [|reflexivity].
  by destruct (msgpack_decode msgpack _) as [metadata|e].
Qed.

(** X18: [loadFromFile] fails without any effect: on a path that holds
    no file with the error of [readFileSync], on a file of fewer than
    ten bytes with a [RangeError], and whenever it throws the world is
    as it was; no envelope is allocated. *)
Theorem loadFromFile_failures (filepath : string) (w : world) :
  (files w !! filepath = None ->
   loadFromFile msgpack filepath w = (Throw (LibraryError "ENOENT"), w))
  /\ (forall data : bytes,
         files w !! filepath = Some data -> len data < 10 ->
         loadFromFile msgpack filepath w = (Throw RangeError, w))
  /\ (forall (err : error) (w' : world),
         loadFromFile msgpack filepath w = (Throw err, w') -> w' = w).
Proof.
  rewrite loadFromFile_run. split; [|split].
  - by intros ->.
  - intros data -> Hshort. by rewrite readUInt32BE_short by lia.
  - intros err w'. destruct (files w !! filepath) as [data|];
      [|by intros [= _ <-]].
    destruct (Buffer.readUInt32BE data 6) as [n|e]; [|by intros [= _ <-]].
    destruct (msgpack_decode msgpack _) as [metadata|e];
      [discriminate|by intros [= _ <-]].
Qed.

(** X19: [loadFromFile] and the [onmessage] handler read the same
    format: loading a file and receiving its bytes as the first message
    of a wrapper build the same envelope at the same reference, or
    fail with the same error, and leave the same world. *)
Theorem loadFromFile_agrees_with_onmessage (filepath : string)
    (data : bytes) (this : BinJSONWebSocket.t) (w : world) :
  files w !! filepath = Some data ->
  BinJSONWebSocket.chunkBuffer this = [] ->
  let '(loaded, w1) := loadFromFile msgpack filepath w in
  let '(this', r, w2) := BinJSONWebSocket.onmessage msgpack this data w in
  w1 = w2
  /\ match loaded with
     | Ok l => r = Ok tt /\ BinJSONWebSocket.currentBinaryJSON this' = Some l
     | Throw err =>
         r = Throw err
         /\ BinJSONWebSocket.currentBinaryJSON this'
            = BinJSONWebSocket.currentBinaryJSON this
     end.
Proof.
  intros Hfile Hbuf. rewrite loadFromFile_run, Hfile.
  rewrite (onmessage_first_chunk msgpack this data w Hbuf). cbv zeta.
  destruct (Buffer.readUInt32BE data 6) as [n|e]; [|by repeat split].
  destruct (msgpack_decode msgpack _) as [metadata|e]; by repeat split.
Qed.

(** X20: [loadFromFile] never checks the header: whatever the first six
    bytes of a file are, magic or not, they become the header of the
    envelope; success, metadata and payload depend on the bytes from
    offset 6 on only. *)
Theorem loadFromFile_accepts_any_header (filepath : string)
    (header rest : bytes) (w : world) :
  length header = 6%nat ->
  files w !! filepath = Some (header ++ rest) ->
  loadFromFile msgpack filepath w
  = match Buffer.readUInt32BE rest 0 with
    | Throw e => (Throw e, w)
    | Ok n =>
        match msgpack_decode msgpack (Buffer.slice rest 0 n) with
        | Throw e => (Throw e, w)
        | Ok metadata =>
            let l := fresh (dom (heap w)) in
            (Ok l,
             with_heap
               (<[l := {| BinaryJSON.header := header;
                          BinaryJSON.metadata := metadata;
                          BinaryJSON.payload := Buffer.slice_from rest n |}]>
                  (heap w)) w)
        end
    end.
Proof.
  intros Hheader Hfile. rewrite loadFromFile_run, Hfile.
  assert (H6 : len header = 6) by (unfold len; lia).
  pose proof (readUInt32BE_behind_prefix header rest 0 (Z.le_refl 0)) as Hread.
  rewrite H6 in Hread. change (6 + 0) with 6 in Hread. rewrite Hread.
  destruct (Buffer.readUInt32BE rest 0) as [n|e] eqn:Hn; [|reflexivity].
  apply readUInt32BE_nonneg in Hn.
  pose proof (slice_behind_prefix header rest 0 n (Z.le_refl 0) Hn) as Hmeta.
  rewrite H6 in Hmeta. change (6 + 0) with 6 in Hmeta. rewrite Hmeta.
  assert (Hhead : Buffer.slice (header ++ rest) 0 6 = header).
  { rewrite slice_prefix by lia. change (Z.to_nat 6) with 6%nat.
    rewrite <- Hheader. apply take_app_length. }
  assert (Htail : Buffer.slice_from (header ++ rest) (6 + n)
                  = Buffer.slice_from rest n).
  { unfold Buffer.slice_from.
    pose proof (slice_behind_prefix header rest n (len rest) Hn) as Hs.
    rewrite H6 in Hs. rewrite <- Hs by (unfold len; lia).
    f_equal. unfold len. rewrite length_app. lia. }
  by rewrite Hhead, Htail.
Qed.

End loading.

(** A run of X18: a file of four bytes. *)
Lemma loadFromFile_failures_witness :
  let w := {| clock := 0; entropy := fun _ => x00; consumed := 0;
              heap := ∅; files := {[ "short.bin" := [x42; x4a; x00; x00] ]};
              calls := [] |} in
  files w !! "short.bin" = Some [x42; x4a; x00; x00]
  /\ len [x42; x4a; x00; x00] < 10
  /\ loadFromFile Msgpack.codec "short.bin" w = (Throw RangeError, w)
  /\ loadFromFile Msgpack.codec "absent.bin" w
     = (Throw (LibraryError "ENOENT"), w).
Proof.
  intros w. split; [reflexivity|]. split; [unfold len; simpl; lia|].
  destruct (loadFromFile_failures Msgpack.codec "short.bin" w)
    as (_ & Hshort & _).
  destruct (loadFromFile_failures Msgpack.codec "absent.bin" w)
    as (Habsent & _).
  split; [apply (Hshort [x42; x4a; x00; x00]);
          [reflexivity|unfold len; simpl; lia]|].
  apply Habsent. reflexivity.
Defined.

(** A run of X20: a file whose first six bytes are not a header of the
    format, followed by 00 00 00 01 07. The length read at offset 6 is
    1, the metadata is decoded from the one byte at offset 6 and the
    payload is everything from offset 7 on. *)
Lemma loadFromFile_accepts_any_header_witness :
  let header := [x00; x01; x02; x03; x04; x05] in
  let rest := [x00; x00; x00; x01; x07] in
  let w := {| clock := 0; entropy := fun _ => x00; consumed := 0;
              heap := ∅; files := {[ "odd.bin" := header ++ rest ]};
              calls := [] |} in
  length header = 6%nat
  /\ files w !! "odd.bin" = Some (header ++ rest)
  /\ exists (l : loc) (w' : world),
       loadFromFile Msgpack.codec "odd.bin" w = (Ok l, w')
       /\ heap w' !! l
          = Some {| BinaryJSON.header := header;
                    BinaryJSON.metadata := JNumber 0;
                    BinaryJSON.payload := [x00; x00; x01; x07] |}.
Proof.
  intros header rest w. split; [reflexivity|]. split; [reflexivity|].
  pose proof (loadFromFile_accepts_any_header Msgpack.codec "odd.bin"
                header rest w eq_refl eq_refl) as Hrun.
  do 2 eexists. split; [rewrite Hrun; reflexivity|].
  vm_compute. reflexivity.
Defined.

(** A run of X19 on the same bytes. *)
Lemma loadFromFile_agrees_with_onmessage_witness :
  let data := [x00; x01; x02; x03; x04; x05; x00; x00; x00; x01; x07] in
  let w := {| clock := 0; entropy := fun _ => x00; consumed := 0;
              heap := ∅; files := {[ "odd.bin" := data ]}; calls := [] |} in
  let this := BinJSONWebSocket.create Scenario.binjson BinJSONWebSocket.OPEN in
  files w !! "odd.bin" = Some data
  /\ BinJSONWebSocket.chunkBuffer this = []
  /\ (loadFromFile Msgpack.codec "odd.bin" w).2
     = (BinJSONWebSocket.onmessage Msgpack.codec this data w).2.
Proof.
  intros data w this. split; [reflexivity|]. split; [reflexivity|].
  pose proof (loadFromFile_agrees_with_onmessage Msgpack.codec "odd.bin"
                data this w eq_refl eq_refl) as Hagree.
  destruct (loadFromFile Msgpack.codec "odd.bin" w) as [loaded w1].
  destruct (BinJSONWebSocket.onmessage Msgpack.codec this data w)
    as [[this' r] w2].
  exact (proj1 Hagree).
Defined.

Section saving.
Context (msgpack : Codec).

(** X21: [saveToFile] writes one file and nothing else: the envelope
    and the rest of the heap, the other files, the generator and the
    log are as before, and saving the same envelope to the same path
    again changes nothing. *)
Theorem saveToFile_changes_one_file (l : loc) (e : BinaryJSON.t)
    (filepath : string) (w : world) :
  heap w !! l = Some e ->
  exists w' : world,
    saveToFile msgpack l filepath w = (Ok tt, w')
    /\ heap w' = heap w
    /\ consumed w' = consumed w
    /\ calls w' = calls w
    /\ (forall other : string,
          other <> filepath -> files w' !! other = files w !! other)
    /\ saveToFile msgpack l filepath w' = (Ok tt, w').
Proof.
  intros Hl. unfold saveToFile, deref, writeFileSync, mbind, M_bind.
  rewrite Hl. eexists. split; [reflexivity|]. cbn [heap consumed calls files].
  do 3 (split; [reflexivity|]). split.
  - intros other Hother. by apply lookup_insert_ne.
  - cbn [heap]. rewrite Hl. cbn [heap files clock entropy consumed calls].
    by rewrite insert_insert_eq.
Qed.

End saving.

Lemma saveToFile_changes_one_file_witness :
  let w := {| clock := 0; entropy := fun _ => x00; consumed := 0;
              heap := {[ 1%positive := Scenario.alice_envelope ]};
              files := {[ "kept.bin" := [x01] ]}; calls := [] |} in
  heap w !! 1%positive = Some Scenario.alice_envelope
  /\ exists w' : world,
       saveToFile Msgpack.codec 1%positive "alice.bin" w = (Ok tt, w')
       /\ files w' !! "kept.bin" = Some [x01].
Proof.
  intros w. split; [reflexivity|].
  destruct (saveToFile_changes_one_file Msgpack.codec 1%positive
              Scenario.alice_envelope "alice.bin" w eq_refl)
    as (w' & Hrun & _ & _ & _ & Hother & _).
  exists w'. split; [exact Hrun|].
  rewrite Hother by discriminate. reflexivity.
Defined.

(** ** Constructors *)

Lemma length_string_of_list_byte (b : bytes) :
  String.length (String.string_of_list_byte b) = length b.
Proof.
  unfold String.string_of_list_byte.
  induction b as [|x b IH]; [reflexivity|].
  cbn [List.map String.string_of_list_ascii String.length length].
  by rewrite IH.
Qed.

Lemma length_hex_stringify (b : bytes) :
  String.length (Hex.stringify b) = (2 * length b)%nat.
Proof.
  unfold Hex.stringify. rewrite length_string_of_list_byte.
  induction b as [|x b IH]; [reflexivity|].
  cbn [List.map List.concat app length]. rewrite IH. lia.
Qed.

Lemma length_next_random (n : nat) (w : world) :
  length (next_random n w) = n.
Proof. unfold next_random. by rewrite length_fmap, length_seq. Qed.

(** The constructor of [SecurityManager] does not throw. *)
Lemma new_SecurityManager_returns (key : option string) (w : world) :
  exists (this : SecurityManager.t) (w' : world),
    new_SecurityManager key w = (Ok this, w').
Proof.
  unfold new_SecurityManager.
  destruct key as [k|]; [destruct (String.eqb k "")|]; by do 2 eexists.
Qed.

(** X22: the constructor of [SecurityManager] keeps a key that is not
    empty and draws no random bytes for it; for no key, or the empty
    string, it draws 32 random bytes and the key is their hexadecimal
    text: 64 characters, from which the bytes can be read back. *)
Theorem new_SecurityManager_key (key : option string) (w : world) :
  exists (this : SecurityManager.t) (w' : world),
    new_SecurityManager key w = (Ok this, w')
    /\ heap w' = heap w /\ files w' = files w /\ calls w' = calls w
    /\ match key with
       | Some k =>
           if String.eqb k "" then
             SecurityManager.key this = Hex.stringify (next_random 32 w)
           else SecurityManager.key this = k /\ w' = w
       | None => SecurityManager.key this = Hex.stringify (next_random 32 w)
       end
    /\ (SecurityManager.key this = Hex.stringify (next_random 32 w) ->
        String.length (SecurityManager.key this) = 64%nat
        /\ Hex.parse (SecurityManager.key this) = next_random 32 w)
    /\ (key = None \/ key = Some "" ->
        consumed w' = (consumed w + 32)%nat).
Proof.
  assert (Hgenerated : forall this : SecurityManager.t,
             SecurityManager.key this = Hex.stringify (next_random 32 w) ->
             String.length (SecurityManager.key this) = 64%nat
             /\ Hex.parse (SecurityManager.key this) = next_random 32 w).
  { intros this ->. split; [|apply hex_parse_stringify].
    by rewrite length_hex_stringify, length_next_random. }
  unfold new_SecurityManager.
  destruct key as [k|]; [destruct (String.eqb_spec k "") as [->|Hk]|].
  - do 2 eexists. split; [reflexivity|]. cbn [heap files calls consumed].
    do 4 (split; [reflexivity|]). split; [apply Hgenerated; reflexivity|].
    reflexivity.
  - do 2 eexists. split; [reflexivity|].
    do 3 (split; [reflexivity|]). split; [by split|].
    split; [apply Hgenerated|]. intros [H|H]; congruence.
  - do 2 eexists. split; [reflexivity|]. cbn [heap files calls consumed].
    do 4 (split; [reflexivity|]). split; [apply Hgenerated; reflexivity|].
    reflexivity.
Qed.

Section constructing.
Context (msgpack : Codec) (zlib : Compressor) (cipher : Cipher).
Context (compile : json -> result SchemaValidator.t).

(** X23: a [BinJSON] built with a schema that is falsy ([null], the
    default, but also [false], [0] or the empty string) has no
    validator: [ajv.compile] is not called, the handler is in batch
    mode with the default chunk size, and [serialize] of any value
    starts with [fromDict], without a validation. *)
Theorem new_BinJSON_falsy_schema (schema : json) (securityKey : option string)
    (w : world) :
  truthy schema = false ->
  exists (this : BinJSON.t) (w' : world),
    new_BinJSON compile schema securityKey w = (Ok this, w')
    /\ BinJSON.validator this = None
    /\ BinJSON.handler this = DataHandler.default
    /\ forall (data : json) (schemaId : Z) (compress encrypt : bool)
         (w1 : world),
         exists later : list call,
           calls (BinJSON.serialize msgpack zlib cipher this data schemaId
                    compress encrypt w1).2
           = calls w1 ++ CallFromDict data schemaId compress :: later.
Proof.
  intros Hfalsy. unfold new_BinJSON. rewrite Hfalsy.
  destruct (new_SecurityManager_returns securityKey w) as (security & w' & Hs).
  unfold mbind, M_bind, mret, M_ret at 1. rewrite Hs.
  do 2 eexists. split; [reflexivity|]. do 2 (split; [reflexivity|]).
  intros data schemaId compress encrypt w1.
  rewrite (serialize_validated msgpack zlib cipher) by reflexivity.
  unfold validation_calls. cbn [BinJSON.validator app]. cbv zeta.
  destruct (BinaryJSON.fromDict msgpack zlib (clock w1) data schemaId compress)
    as [e|err]; [|by exists []].
  destruct encrypt; [|by exists []].
  cbn [BinJSON.security].
  destruct (SecurityManager.encrypt_with_iv cipher security _ _);
    by eexists.
Qed.

(** X24: a schema that [ajv.compile] rejects makes the constructor of
    [BinJSON] throw the error of [ajv.compile] before a key is
    generated: no random bytes are drawn and the world is unchanged. *)
Theorem new_BinJSON_schema_rejected (schema : json)
    (securityKey : option string) (err : error) (w : world) :
  truthy schema = true ->
  compile schema = Throw err ->
  new_BinJSON compile schema securityKey w = (Throw err, w).
Proof.
  intros Htruthy Hcompile. unfold new_BinJSON. rewrite Htruthy.
  unfold mbind, M_bind, lift. by rewrite Hcompile.
Qed.

End constructing.

Lemma new_SecurityManager_key_witness :
  exists (this : SecurityManager.t) (w' : world),
    new_SecurityManager None Scenario.initial = (Ok this, w')
    /\ String.length (SecurityManager.key this) = 64%nat
    /\ consumed w' = (consumed Scenario.initial + 32)%nat.
Proof.
  destruct (new_SecurityManager_key None Scenario.initial)
    as (this & w' & Hrun & _ & _ & _ & Hkey & Hgenerated & Hconsumed).
  exists this, w'. split; [exact Hrun|].
  split; [exact (proj1 (Hgenerated Hkey))|].
  apply Hconsumed. left. reflexivity.
Defined.

Lemma new_BinJSON_falsy_schema_witness :
  truthy (JString "") = false
  /\ exists (this : BinJSON.t) (w' : world),
       new_BinJSON (fun _ => Throw (LibraryError "schema is invalid"))
         (JString "") (Some "secret") Scenario.initial = (Ok this, w')
       /\ BinJSON.validator this = None.
Proof.
  split; [reflexivity|].
  destruct (new_BinJSON_falsy_schema Msgpack.codec ZlibStored.zlib
              XorCbc.cipher (fun _ => Throw (LibraryError "schema is invalid"))
              (JString "") (Some "secret") Scenario.initial eq_refl)
    as (this & w' & Hrun & Hvalidator & _).
  exists this, w'. split; [exact Hrun|exact Hvalidator].
Defined.

Lemma new_BinJSON_schema_rejected_witness :
  truthy (JObject [("type", JNumber 7)]) = true
  /\ new_BinJSON (fun _ => Throw (LibraryError "schema is invalid"))
       (JObject [("type", JNumber 7)]) None Scenario.initial
     = (Throw (LibraryError "schema is invalid"), Scenario.initial).
Proof.
  split; [reflexivity|].
  apply (new_BinJSON_schema_rejected
           (fun _ => Throw (LibraryError "schema is invalid"))
           (JObject [("type", JNumber 7)]) None
           (LibraryError "schema is invalid") Scenario.initial);
    reflexivity.
Defined.
